(** * securitycontrol: the control registry and the test registry

    A shallow embedding of [pkg/control/control.go] and
    [pkg/validate/validate.go], followed by the properties of the two
    validators.

    Conventions of the embedding:
    - [float64] is IEEE-754 binary64, carried by Rocq's primitive floats, so
      every sum, difference, product and comparison rounds as it does in Go;
    - [string] is Go's string, [list] is a slice, a nil pointer result is
      [None];
    - [time.Time] is the count of nanoseconds since the zero time
      (0001-01-01 00:00:00 UTC), in the UTC location;
    - the wall clock is part of the [World]: each call of [time.Now] takes the
      next reading, and the functions that read the clock live in the state
      monad [IO];
    - [getControlByID] returns a pointer into the slice of controls, nil
      when no control has the identifier; nothing is written through it, and
      it is carried as an [option];
    - the method [ValidateControl] of package [control] is not embedded: it
      passes that pointer to [validateControlImplementation],
      [identifyIssues], [calculateConfidence] and [generateRecommendations],
      which take a [SecurityControl] value (lines 147 to 159), so it has no
      type in Go; what it was written to compute is embedded through the
      unexported [validateControl], which takes the control by value and
      has the same body without the lookup and the append. *)

From Stdlib Require Import ZArith List String Ascii Bool Lia.
From Stdlib Require Import DecimalString.
From Stdlib Require Import Uint63 Floats.
Import ListNotations.

Set Warnings "-inexact-float".

Local Open Scope string_scope.
Local Open Scope list_scope.
Local Open Scope Z_scope.

(** ** float64 *)

Definition float64 := float.

(** Go's conversion [float64(n)] of a non-negative [int] (a slice length):
    round to nearest, ties to even. *)
Definition float64_of_int (n : Z) : float64 :=
  PrimFloat.of_uint63 (Uint63.of_Z n).

(** [len(s)] as a Go [int]. *)
Definition len {A : Type} (s : list A) : Z := Z.of_nat (List.length s).

(** ** The part of package [time] the validators use *)

Module GoTime.

Definition Time := Z.

Definition nsPerSecond : Z := 1000000000.
Definition nsPerDay : Z := 86400 * nsPerSecond.

Definition zero : Time := 0.

Definition IsZero (t : Time) : bool := t =? 0.
Definition Before (t u : Time) : bool := t <? u.

(** Days since 0001-01-01 of the civil date [y]-[m]-[d], for a month
    [1 <= m <= 12] and any integer [d] (a day out of the month's range
    runs over into the neighbouring months, as in [time.Date]). *)
Definition days_from_civil (y m d : Z) : Z :=
  let y' := if m <=? 2 then y - 1 else y in
  let era := y' / 400 in
  let yoe := y' - era * 400 in
  let mp := if 2 <? m then m - 3 else m + 9 in
  let doy := (153 * mp + 2) / 5 + d - 1 in
  let doe := yoe * 365 + yoe / 4 - yoe / 100 + doy in
  era * 146097 + doe - 306.

(** The civil date (year, month, day) of a day count since 0001-01-01. *)
Definition civil_from_days (n : Z) : Z * Z * Z :=
  let z := n + 306 in
  let era := z / 146097 in
  let doe := z - era * 146097 in
  let yoe := (doe - doe / 1460 + doe / 36524 - doe / 146096) / 365 in
  let doy := doe - (365 * yoe + yoe / 4 - yoe / 100) in
  let mp := (5 * doy + 2) / 153 in
  let d := doy - (153 * mp + 2) / 5 + 1 in
  let m := if mp <? 10 then mp + 3 else mp - 9 in
  let y := yoe + era * 400 + (if m <=? 2 then 1 else 0) in
  (y, m, d).

(** [t.AddDate(years, months, days)]: the date is moved field by field and
    normalised, the time of day is kept. *)
Definition AddDate (t : Time) (years months days : Z) : Time :=
  let '(y, m, d) := civil_from_days (t / nsPerDay) in
  let mm := (m - 1) + months in
  let y' := y + years + mm / 12 in
  let m' := mm mod 12 + 1 in
  (days_from_civil y' m' 1 + (d - 1) + days) * nsPerDay + t mod nsPerDay.

(** [appendInt]: a sign for a negative number, then the decimal digits
    padded with zeros on the left up to [width]. *)
Fixpoint zeros (n : nat) : string :=
  match n with
  | O => ""
  | S n' => String "0" (zeros n')
  end.

Definition appendInt (x : Z) (width : nat) : string :=
  let digits := NilZero.string_of_uint (N.to_uint (Z.to_N (Z.abs x))) in
  let sign := if x <? 0 then "-" else "" in
  (sign ++ zeros (width - String.length digits) ++ digits)%string.

(** [t.Format("20060102150405")]. *)
Definition Format_20060102150405 (t : Time) : string :=
  let '(y, m, d) := civil_from_days (t / nsPerDay) in
  let sod := (t mod nsPerDay) / nsPerSecond in
  (appendInt y 4 ++ appendInt m 2 ++ appendInt d 2
     ++ appendInt (sod / 3600) 2
     ++ appendInt ((sod / 60) mod 60) 2
     ++ appendInt (sod mod 60) 2)%string.

(** The instant of a civil date and time of day, in UTC. *)
Definition Date (y m d hh mi ss : Z) : Time :=
  (days_from_civil y m d * 86400 + hh * 3600 + mi * 60 + ss) * nsPerSecond.

End GoTime.

Import GoTime.

(** ** The part of package [fmt] the reports use *)

Module GoFmt.

(** The line feed, written [\n] in the source. *)
Definition LF : string := String "010"%char "".

(** [fmt.Sprintf("%d", n)]. *)
Definition Sprintf_d (n : Z) : string := NilZero.string_of_int (Z.to_int n).

(** The quotient [num / den] of two non-negative integers, rounded to the
    nearest integer, a tie going to the even one. *)
Definition roundHalfEven (num den : Z) : Z :=
  let q := num / den in
  let r := num mod den in
  match 2 * r ?= den with
  | Lt => q
  | Gt => q + 1
  | Eq => if Z.even q then q else q + 1
  end.

(** [fmt.Sprintf("%.1f", x)]: the exact value of [x] rounded to one decimal,
    a tie going to the even digit; the sign is that of [x], also when the
    digits are all zero; NaN and the infinities are spelled out. *)
Definition Sprintf_1f (x : float64) : string :=
  match Prim2SF x with
  | S754_nan => "NaN"
  | S754_infinity s => if s then "-Inf" else "+Inf"
  | S754_zero s => ((if s then "-" else "") ++ "0.0")%string
  | S754_finite s m e =>
      let tenths :=
        if 0 <=? e then 10 * Zpos m * 2 ^ e
        else roundHalfEven (10 * Zpos m) (2 ^ (- e)) in
      let sign := if s then "-" else "" in
      (sign ++ Sprintf_d (tenths / 10) ++ "." ++ Sprintf_d (tenths mod 10))%string
  end.

(** [for i, a := range l { s = body(s, i, a) }], the index starting at
    [i]. *)
Fixpoint rangeFold {A S : Type} (body : S -> Z -> A -> S) (i : Z)
  (l : list A) (s : S) : S :=
  match l with
  | [] => s
  | a :: l' => rangeFold body (i + 1) l' (body s i a)
  end.

End GoFmt.

Import GoFmt.

(** ** The world: the wall clock and the number of readings taken so far *)

Record World := mkWorld {
  wall : nat -> Time;
  tick : nat
}.

Definition IO (A : Type) : Type := World -> A * World.

Definition ret {A : Type} (a : A) : IO A := fun w => (a, w).

Definition bind {A B : Type} (m : IO A) (k : A -> IO B) : IO B :=
  fun w => let (a, w') := m w in k a w'.

Notation "x <- m ;; k" := (bind m (fun x => k))
  (at level 61, m at next level, right associativity).

(** [time.Now()]. *)
Definition time_Now : IO Time :=
  fun w => (wall w (tick w), mkWorld (wall w) (S (tick w))).

(** ** Package [control] *)

Module control.

Definition ControlCategory := string.
Definition CategoryPreventive : ControlCategory := "preventive".
Definition CategoryDetective : ControlCategory := "detective".
Definition CategoryCorrective : ControlCategory := "corrective".
Definition CategoryDeterrent : ControlCategory := "deterrent".
Definition CategoryRecovery : ControlCategory := "recovery".

Definition ControlType := string.
Definition TypeTechnical : ControlType := "technical".
Definition TypeAdministrative : ControlType := "administrative".
Definition TypePhysical : ControlType := "physical".

Definition ControlStatus := string.
Definition StatusImplemented : ControlStatus := "implemented".
Definition StatusPartiallyImplemented : ControlStatus :=
  "partially_implemented".
Definition StatusNotImplemented : ControlStatus := "not_implemented".
Definition StatusDeprecated : ControlStatus := "deprecated".

Record SecurityControl := mkSecurityControl {
  ID : string;
  Name : string;
  Description : string;
  Category : ControlCategory;
  Type_ : ControlType;
  SubCategory : string;
  RiskReduction : float64;
  Implementation : string;
  Verification : string;
  Maintenance : string;
  Owner : string;
  Status : ControlStatus;
  LastVerified : Time;
  NextReview : Time;
  Evidence : list string;
  References : list string
}.

Record ControlValidationResult := mkControlValidationResult {
  ControlID : string;
  ControlName : string;
  ResultStatus : string;
  Effectiveness : float64;
  Confidence : float64;
  Issues : list string;
  ResultEvidence : list string;
  Recommendations : list string;
  ValidatedAt : Time
}.

Record ControlValidator := mkControlValidator {
  controls : list SecurityControl;
  results : list ControlValidationResult
}.

Definition NewControlValidator : ControlValidator :=
  mkControlValidator [] [].

Definition AddControl (v : ControlValidator) (control : SecurityControl)
  : ControlValidator :=
  mkControlValidator (controls v ++ [control]) (results v).

Definition GetControls (v : ControlValidator) : list SecurityControl :=
  controls v.

Definition GetControlsByCategory (v : ControlValidator)
  (category : ControlCategory) : list SecurityControl :=
  filter (fun control => String.eqb (Category control) category)
    (controls v).

Definition GetControlsByStatus (v : ControlValidator)
  (status : ControlStatus) : list SecurityControl :=
  filter (fun control => String.eqb (Status control) status) (controls v).

(** [validateControlImplementation]: the simulated effectiveness. *)
Definition validateControlImplementation (control : SecurityControl)
  : float64 :=
  if String.eqb (Status control) StatusImplemented then 0.9%float
  else if String.eqb (Status control) StatusPartiallyImplemented
  then 0.6%float
  else if String.eqb (Status control) StatusNotImplemented then 0.0%float
  else 0.7%float.

Definition issue_no_evidence : string :=
  "No evidence provided for control implementation".
Definition issue_not_verified : string :=
  "Control not verified in last 6 months".
Definition issue_no_owner : string := "Control owner not assigned".

(** The recency test of [identifyIssues]; [||] evaluates its right operand,
    and with it [time.Now()], only when the timestamp is set. *)
Definition notRecentlyVerified (control : SecurityControl) : IO bool :=
  if IsZero (LastVerified control) then ret true
  else
    now <- time_Now ;;
    ret (Before (LastVerified control) (AddDate now 0 (-6) 0)).

Definition identifyIssues (control : SecurityControl) : IO (list string) :=
  let issues := @nil string in
  let issues :=
    if len (Evidence control) =? 0
    then issues ++ [issue_no_evidence] else issues in
  stale <- notRecentlyVerified control ;;
  let issues :=
    if (stale : bool) then issues ++ [issue_not_verified] else issues in
  let issues :=
    if String.eqb (Owner control) ""
    then issues ++ [issue_no_owner] else issues in
  ret issues.

Definition calculateConfidence (control : SecurityControl)
  (issues : list string) : float64 :=
  let confidence := 0.5%float in
  let confidence :=
    if 0 <? len (Evidence control)
    then (confidence + 0.2)%float else confidence in
  let confidence :=
    if len issues =? 0 then (confidence + 0.3)%float
    else (confidence - float64_of_int (len issues) * 0.1)%float in
  let confidence :=
    if (confidence <? 0.0)%float then 0.0%float else confidence in
  let confidence :=
    if (1.0 <? confidence)%float then 1.0%float else confidence in
  confidence.

(** One turn of the loop of [generateRecommendations]. *)
Definition recommendation (issue : string) : string :=
  if String.eqb issue issue_no_evidence
  then "Provide evidence of control implementation"
  else if String.eqb issue issue_not_verified
  then "Schedule control verification"
  else if String.eqb issue issue_no_owner
  then "Assign control owner"
  else ("Address: " ++ issue)%string.

Definition generateRecommendations (control : SecurityControl)
  (issues : list string) : list string :=
  fold_left (fun recommendations issue =>
               recommendations ++ [recommendation issue])
    issues [].

(** The overall status, lines 293 to 299 of [validateControl]; lines 163 to
    169 of [ValidateControl] are the same text. *)
Definition overallStatus (issues : list string) (effective : float64)
  : string :=
  if (len issues =? 0) && (0.9 <=? effective)%float then "EFFECTIVE"
  else if (0.7 <=? effective)%float then "PARTIALLY_EFFECTIVE"
  else "INEFFECTIVE".

(** [validateControl]: the result of one control, nothing stored. *)
Definition validateControl (control : SecurityControl)
  : IO ControlValidationResult :=
  validatedAt <- time_Now ;;
  let effective := validateControlImplementation control in
  issues <- identifyIssues control ;;
  let confidence := calculateConfidence control issues in
  let recommendations := generateRecommendations control issues in
  ret (mkControlValidationResult
         (ID control) (Name control) (overallStatus issues effective)
         effective confidence issues [] recommendations validatedAt).

(** [getControlByID]: the first control with the identifier. *)
Fixpoint lookupControl (cs : list SecurityControl) (id : string)
  : option SecurityControl :=
  match cs with
  | [] => None
  | c :: cs' => if String.eqb (ID c) id then Some c else lookupControl cs' id
  end.

Definition getControlByID (v : ControlValidator) (id : string)
  : option SecurityControl :=
  lookupControl (controls v) id.

Definition GetValidationResults (v : ControlValidator)
  : list ControlValidationResult :=
  results v.

(** [CreateCommonControls]: the four built-in controls; each reads the
    clock for its [LastVerified]. *)
Definition CreateCommonControls : IO (list SecurityControl) :=
  t1 <- time_Now ;;
  t2 <- time_Now ;;
  t3 <- time_Now ;;
  t4 <- time_Now ;;
  ret [ mkSecurityControl "ctrl-001" "Access Control Policy"
          "Policy governing access to systems and data"
          CategoryPreventive TypeAdministrative "Access Management"
          0.3%float
          "Documented access control policy enforced through IAM"
          "Review policy documents and access logs" "" "Security Team"
          StatusImplemented (AddDate t1 0 (-3) 0) zero
          ["policy-access-control.pdf"; "iam-configuration.json"]
          ["NIST-800-53-AC-1"];
        mkSecurityControl "ctrl-002" "Multi-Factor Authentication"
          "MFA for all user access to systems"
          CategoryPreventive TypeTechnical "Authentication"
          0.4%float
          "MFA enforced for all user accounts"
          "Test MFA enforcement" "" "IT Operations"
          StatusImplemented (AddDate t2 0 (-1) 0) zero
          ["mfa-configuration.json"; "audit-log.json"]
          ["NIST-800-53-IA-2"];
        mkSecurityControl "ctrl-003" "Security Monitoring"
          "Continuous security monitoring of systems"
          CategoryDetective TypeTechnical "Monitoring"
          0.35%float
          "SIEM and IDS/IPS deployed"
          "Review monitoring dashboards" "" "SOC Team"
          StatusImplemented (AddDate t3 0 (-2) 0) zero
          ["siem-config.json"; "monitoring-report.pdf"]
          ["NIST-800-53-AU-6"];
        mkSecurityControl "ctrl-004" "Incident Response Plan"
          "Documented incident response procedures"
          CategoryCorrective TypeAdministrative "Incident Response"
          0.25%float
          "IR plan documented and tested"
          "Review IR plan and test results" "" "Security Team"
          StatusImplemented (AddDate t4 0 (-4) 0) zero
          ["ir-plan.pdf"; "test-results.pdf"]
          ["NIST-800-53-IR-1"] ].

(** One turn of the loop of [GenerateReport]: the text of the result at
    index [i], appended to the report. *)
Definition reportEntry (report : string) (i : Z)
  (result : ControlValidationResult) : string :=
  let report :=
    (report ++ (LF ++ "[" ++ Sprintf_d (i + 1) ++ "] "
                  ++ ControlName result ++ LF))%string in
  let report :=
    (report ++ ("    ID: " ++ ControlID result ++ LF))%string in
  let report :=
    (report ++ ("    Status: " ++ ResultStatus result ++ LF))%string in
  let report :=
    (report ++ ("    Effectiveness: "
                  ++ (Sprintf_1f (Effectiveness result * 100)%float ++ "%")
                  ++ LF))%string in
  let report :=
    (report ++ ("    Confidence: "
                  ++ (Sprintf_1f (Confidence result * 100)%float ++ "%")
                  ++ LF ++ LF))%string in
  let report :=
    if 0 <? len (Issues result)
    then
      let report := (report ++ ("    Issues:" ++ LF))%string in
      let report :=
        rangeFold (fun report j issue =>
                     (report ++ ("      [" ++ Sprintf_d (j + 1) ++ "] "
                                   ++ issue ++ LF))%string)
          0 (Issues result) report in
      (report ++ LF)%string
    else report in
  let report :=
    if 0 <? len (Recommendations result)
    then
      let report := (report ++ ("    Recommendations:" ++ LF))%string in
      let report :=
        rangeFold (fun report j rec =>
                     (report ++ ("      [" ++ Sprintf_d (j + 1) ++ "] "
                                   ++ rec ++ LF))%string)
          0 (Recommendations result) report in
      (report ++ LF)%string
    else report in
  report.

(** [GenerateReport]: the text report of the result log. *)
Definition GenerateReport (validator : ControlValidator) : string :=
  let report := "" in
  let report :=
    (report ++ ("=== Security Control Validation Report ===" ++ LF ++ LF))%string
  in
  let results := GetValidationResults validator in
  if len results =? 0
  then (report ++ ("No controls validated yet" ++ LF))%string
  else
    let report := (report ++ ("Validation Results:" ++ LF))%string in
    rangeFold reportEntry 0 results report.

(** The package-level [GetControl] and [GetValidationResult]. *)
Definition GetControl (validator : ControlValidator) (id : string)
  : option SecurityControl :=
  getControlByID validator id.

Definition GetValidationResult (result : option ControlValidationResult)
  : option ControlValidationResult :=
  result.

End control.

(** ** Package [validate] *)

Module validate.

Definition ValidationMethod := string.
Definition MethodDocumentation : ValidationMethod := "documentation".
Definition MethodInterview : ValidationMethod := "interview".
Definition MethodObservation : ValidationMethod := "observation".
Definition MethodTesting : ValidationMethod := "testing".
Definition MethodAutomation : ValidationMethod := "automation".

Record ControlTest := mkControlTest {
  ID : string;
  Name : string;
  Description : string;
  Method : ValidationMethod;
  Steps : list string;
  ExpectedResult : string;
  ActualResult : string;
  Passed : bool;
  Notes : string;
  TestedAt : Time;
  TestedBy : string
}.

Record ControlValidation := mkControlValidation {
  CV_ControlID : string;
  CV_Method : ValidationMethod;
  CV_Status : string;
  CV_Confidence : float64;
  CV_Issues : list string;
  CV_Evidence : list string;
  CV_ValidatedAt : Time
}.

Record ValidationResult := mkValidationResult {
  ResultID : string;
  ControlID : string;
  ControlName : string;
  TestPassed : bool;
  ValidationResultLabel : string;
  Effectiveness : float64;
  RiskRemaining : float64;
  Recommendations : list string;
  ValidatedAt : Time
}.

Record ControlValidator := mkControlValidator {
  controls : list ControlTest;
  validation : list ControlValidation;
  results : list ValidationResult
}.

Definition NewControlValidator : ControlValidator :=
  mkControlValidator [] [] [].

Definition AddControlTest (v : ControlValidator) (test : ControlTest)
  : ControlValidator :=
  mkControlValidator (controls v ++ [test]) (validation v) (results v).

(** [validateControlTest]: the simulated execution of one test. The clock
    is read twice, for the identifier and for the timestamp. *)
Definition validateControlTest (test : ControlTest) : IO ValidationResult :=
  let passed := true in
  let effectiveness := 0.8%float in
  idStamp <- time_Now ;;
  validatedAt <- time_Now ;;
  let result :=
    mkValidationResult
      ("val-" ++ Format_20060102150405 idStamp)%string
      (ID test) (Name test) passed "PASS"
      effectiveness (1.0 - effectiveness)%float [] validatedAt in
  let result :=
    if negb passed
    then mkValidationResult
           (ResultID result) (ControlID result) (ControlName result)
           (TestPassed result) "FAIL"
           (Effectiveness result) (RiskRemaining result)
           (Recommendations result
              ++ ["Review and fix control implementation"])
           (ValidatedAt result)
    else result in
  ret result.

(** The loop of [Validate]: one result per test, appended in order. *)
Fixpoint validateAll (tests : list ControlTest)
  (acc : list ValidationResult) : IO (list ValidationResult) :=
  match tests with
  | [] => ret acc
  | test :: tests' =>
      result <- validateControlTest test ;;
      validateAll tests' (acc ++ [result])
  end.

(** [Validate]: the results of all held tests; they are stored with
    [v.results = results] and returned. *)
Definition Validate (v : ControlValidator)
  : IO (list ValidationResult * ControlValidator) :=
  results <- validateAll (controls v) [] ;;
  ret (results, mkControlValidator (controls v) (validation v) results).

Definition GetResults (v : ControlValidator) : list ValidationResult :=
  results v.

Definition GetControlTests (v : ControlValidator) : list ControlTest :=
  controls v.

Definition ValidateByMethod (v : ControlValidator)
  (method : ValidationMethod) : list ControlTest :=
  filter (fun test => String.eqb (Method test) method) (controls v).

(** The package-level [ValidateControl(validator, test)]. *)
Definition ValidateControl (v : ControlValidator) (test : ControlTest)
  : IO ValidationResult :=
  validateControlTest test.

(** [CreateCommonControlTests]: the four built-in tests; each reads the
    clock for its [TestedAt]. *)
Definition CreateCommonControlTests : IO (list ControlTest) :=
  t1 <- time_Now ;;
  t2 <- time_Now ;;
  t3 <- time_Now ;;
  t4 <- time_Now ;;
  ret [ mkControlTest "test-001" "Access Control Verification"
          "Verify access control policies are enforced" MethodTesting
          ["Attempt unauthorized access"; "Verify access is denied";
           "Review access logs"]
          "Unauthorized access denied" "" true
          "All access controls functioning correctly" t1 "Security Team";
        mkControlTest "test-002" "Encryption Verification"
          "Verify data encryption at rest and in transit" MethodTesting
          ["Check encryption configuration"; "Verify certificates";
           "Test data encryption"]
          "Data encrypted correctly" "" true
          "Encryption properly configured" t2 "Security Team";
        mkControlTest "test-003" "Monitoring Verification"
          "Verify security monitoring is active" MethodObservation
          ["Check monitoring dashboards"; "Verify alert configuration";
           "Test alert generation"]
          "Monitoring active and alerts working" "" true
          "All monitoring systems operational" t3 "SOC Team";
        mkControlTest "test-004" "Backup Verification"
          "Verify backup and recovery procedures" MethodTesting
          ["Check backup status"; "Test data restoration";
           "Verify recovery time"]
          "Backups successful and recoverable" "" true
          "Backup and recovery working correctly" t4 "IT Operations" ].

(** The glyphs of the detail lines, U+2713 and U+2717 in UTF-8. *)
Definition checkMark : string :=
  String "226"%char (String "156"%char (String "147"%char "")).
Definition crossMark : string :=
  String "226"%char (String "156"%char (String "151"%char "")).

(** The summary loop of [GenerateValidationReport]: the numbers of passed and
    of failed results. *)
Definition countResult (counts : Z * Z) (result : ValidationResult) : Z * Z :=
  let (passed, failed) := counts in
  if TestPassed result then (passed + 1, failed) else (passed, failed + 1).

(** One turn of the detail loop of [GenerateValidationReport]. *)
Definition detailEntry (report : string) (i : Z) (result : ValidationResult)
  : string :=
  let status := checkMark in
  let status := if negb (TestPassed result) then crossMark else status in
  let report :=
    (report ++ ("  [" ++ Sprintf_d (i + 1) ++ "] " ++ status ++ " "
                  ++ ControlName result ++ LF))%string in
  let report :=
    (report ++ ("      Control ID: " ++ ControlID result ++ LF))%string in
  let report :=
    (report ++ ("      Result: " ++ ValidationResultLabel result ++ LF))%string
  in
  let report :=
    (report ++ ("      Effectiveness: "
                  ++ (Sprintf_1f (Effectiveness result * 100)%float ++ "%")
                  ++ LF))%string in
  let report :=
    (report ++ ("      Risk Remaining: "
                  ++ (Sprintf_1f (RiskRemaining result * 100)%float ++ "%")
                  ++ LF))%string in
  let report :=
    if 0 <? len (Recommendations result)
    then
      let report := (report ++ ("      Recommendations:" ++ LF))%string in
      fold_left (fun report rec =>
                   (report ++ ("        - " ++ rec ++ LF))%string)
        (Recommendations result) report
    else report in
  (report ++ LF)%string.

(** The method [GenerateValidationReport]: the text report of the stored
    results. *)
Definition GenerateValidationReport (v : ControlValidator) : string :=
  let report := "" in
  let report :=
    (report ++ ("=== Security Control Validation Report ===" ++ LF ++ LF))%string
  in
  let results := GetResults v in
  if len results =? 0
  then (report ++ ("No validation results available" ++ LF))%string
  else
    let (passed, failed) := fold_left countResult results (0, 0) in
    let report := (report ++ ("Validation Summary:" ++ LF))%string in
    let report :=
      (report ++ ("  Total Tests: " ++ Sprintf_d (len results) ++ LF))%string
    in
    let report :=
      (report ++ ("  Passed: " ++ Sprintf_d passed ++ LF))%string in
    let report :=
      (report ++ ("  Failed: " ++ Sprintf_d failed ++ LF))%string in
    let report :=
      (report ++ ("  Success Rate: "
                    ++ (Sprintf_1f (float64_of_int passed
                                    / float64_of_int (len results)
                                    * 100)%float ++ "%")
                    ++ LF ++ LF))%string in
    let report := (report ++ ("Validation Details:" ++ LF))%string in
    rangeFold detailEntry 0 results report.

(** The package-level function of the same name, and
    [GetValidationResult]. *)
Definition GenerateValidationReport' (validator : ControlValidator) : string :=
  GenerateValidationReport validator.

Definition GetValidationResult (result : option ValidationResult)
  : option ValidationResult :=
  result.

End validate.

(** ** The command-line program *)

(** [fmt.Println] of one string, as the text it writes. *)
Definition Println (s : string) : string := (s ++ LF)%string.

(** [generateReport], the [report] command: the text written to the standard
    output. Both registries are created and seeded; neither is asked to
    validate. *)
Definition generateReport : IO string :=
  let out := "" in
  let out := (out ++ Println "Generate Validation Report")%string in
  let out := (out ++ Println "=========================")%string in
  let out := (out ++ Println "")%string in
  let controlValidator := control.NewControlValidator in
  let validateValidator := validate.NewControlValidator in
  commonControls <- control.CreateCommonControls ;;
  let controlValidator :=
    fold_left control.AddControl commonControls controlValidator in
  commonTests <- validate.CreateCommonControlTests ;;
  let validateValidator :=
    fold_left validate.AddControlTest commonTests validateValidator in
  let out := (out ++ Println "=== Control Validation Report ===")%string in
  let out :=
    (out ++ Println (control.GenerateReport controlValidator))%string in
  let out :=
    (out ++ Println (LF ++ "=== Test Validation Report ==="))%string in
  let out :=
    (out ++ Println (validate.GenerateValidationReport' validateValidator))%string
  in
  ret out.

(** [printUsage]: the usage text. *)
Definition printUsage : string :=
  "securitycontrol - Security Control Validation Engine

Usage:
  securitycontrol <command> [options]

Commands:
  validate     Validate all security controls
  test <id>    Test specific control
  controls     List available controls
  report       Generate validation report
  status       Check control status
  version      Show version information
  help         Show this help message

Examples:
  securitycontrol validate
  securitycontrol test ctrl-001
  securitycontrol controls
".

Definition version : string := "1.0.0".

(** [main], on the argument vector [os.Args]. The commands [controls] and
    [status] print the entries of a Go map in the order of its iteration,
    which the language leaves open, and the command [validate] runs
    [validateControls], which calls the method [ValidateControl] of package
    [control]; the output of the three is a parameter here. *)
Section Main.

Variables validateControls listControls checkStatus : IO string.

Definition main (args : list string) : IO string :=
  match args with
  | [] | [_] => ret printUsage
  | _ :: command :: rest =>
      if String.eqb command "validate" then validateControls
      else if String.eqb command "test" then
        match rest with
        | [] => ret (Println "Error: control ID required" ++ printUsage)%string
        | _ :: _ => ret ""
        end
      else if String.eqb command "controls" then listControls
      else if String.eqb command "report" then generateReport
      else if String.eqb command "status" then checkStatus
      else if String.eqb command "version" then
        ret ("securitycontrol version " ++ version ++ LF)%string
      else if String.eqb command "help" || String.eqb command "--help"
              || String.eqb command "-h" then ret printUsage
      else ret ("Unknown command: " ++ command ++ LF ++ printUsage)%string
  end.

End Main.

(** ** Concrete worlds and registries used in the examples *)

(** A clock that starts on 2026-10-31 12:00:00 UTC and advances by one
    second per reading. *)
Definition demoWorld : World :=
  mkWorld (fun k => Date 2026 10 31 12 0 0 + Z.of_nat k * nsPerSecond) 0.

(** A control with no evidence, no verification date and no owner. *)
Definition bareControl : control.SecurityControl :=
  control.mkSecurityControl "ctrl-100" "Bare" "" control.CategoryPreventive
    control.TypeTechnical "" 0.5%float "" "" "" ""
    control.StatusImplemented zero zero [] [].

Definition seedControls (cs : list control.SecurityControl)
  : control.ControlValidator :=
  fold_left control.AddControl cs control.NewControlValidator.

Definition seedTests (ts : list validate.ControlTest)
  : validate.ControlValidator :=
  fold_left validate.AddControlTest ts validate.NewControlValidator.

(** * Definitions used to state the properties

    What the functions return without the bookkeeping of the clock, the
    quantities of the specification in its own words, and the concrete inputs
    of the examples. *)

(** ** Floating-point numbers *)

Definition notNaN (x : float64) : Prop := Prim2SF x <> S754_nan.

Definition finiteSF (x : float64) : Prop :=
  exists s m e, Prim2SF x = S754_finite s m e.

(** ** Worlds *)

Definition advance (w : World) (n : nat) : World :=
  mkWorld (wall w) (n + tick w).

(** The clock reading a computation started in [w] gets from its first
    [time.Now()]. *)
Definition nextReading (w : World) : Time := wall w (tick w).

(** ** The control registry *)

Section ControlDefinitions.

Import control.

(** The recency check of [identifyIssues] against the clock reading [now],
    and the issues the function returns for that reading. *)
Definition staleAt (c : SecurityControl) (now : Time) : bool :=
  IsZero (LastVerified c) || Before (LastVerified c) (AddDate now 0 (-6) 0).

Definition issuesAt (c : SecurityControl) (now : Time) : list string :=
  (if len (Evidence c) =? 0 then [issue_no_evidence] else [])
    ++ (if staleAt c now then [issue_not_verified] else [])
    ++ (if String.eqb (Owner c) "" then [issue_no_owner] else []).

(** The result of [validateControl], field by field. *)
Definition resultAt (c : SecurityControl) (validatedAt now : Time)
  : ControlValidationResult :=
  let issues := issuesAt c now in
  mkControlValidationResult (ID c) (Name c)
    (overallStatus issues (validateControlImplementation c))
    (validateControlImplementation c)
    (calculateConfidence c issues)
    issues [] (generateRecommendations c issues) validatedAt.

(** The effectiveness as the specification words it: a table on the status
    alone. *)
Definition statusEffectiveness (s : ControlStatus) : float64 :=
  if string_dec s StatusImplemented then 0.9%float
  else if string_dec s StatusPartiallyImplemented then 0.6%float
  else if string_dec s StatusNotImplemented then 0.0%float
  else 0.7%float.

(** The label as the specification words it, on the number of issues and the
    effectiveness. *)
Definition statusLabel (issueCount : nat) (effectiveness : float64) : string :=
  if Nat.eqb issueCount 0 && (0.9 <=? effectiveness)%float then "EFFECTIVE"
  else if (0.7 <=? effectiveness)%float then "PARTIALLY_EFFECTIVE"
  else "INEFFECTIVE".

Definition clamp01 (x : float64) : float64 :=
  if (x <? 0)%float then 0%float
  else if (1 <? x)%float then 1%float
  else x.

(** The confidence before it is clamped, as the specification words it:
    base 0.5, plus 0.2 with evidence, plus 0.3 without issues and minus 0.1
    per issue otherwise. *)
Definition rawConfidence (hasEvidence : bool) (issueCount : Z) : float64 :=
  let base := 0.5%float in
  let withEvidence := if hasEvidence then (base + 0.2)%float else base in
  if issueCount =? 0 then (withEvidence + 0.3)%float
  else (withEvidence - float64_of_int issueCount * 0.1)%float.

Definition confidenceSpec (hasEvidence : bool) (issueCount : Z) : float64 :=
  clamp01 (rawConfidence hasEvidence issueCount).

Definition nonEmpty {A : Type} (l : list A) : bool :=
  match l with
  | [] => false
  | _ :: _ => true
  end.

(** The three checks in the order of the source, each with the issue it
    raises when it fails. *)
Definition checks (c : SecurityControl) (now : Time) : list (bool * string) :=
  [ (negb (nonEmpty (Evidence c)), issue_no_evidence);
    (IsZero (LastVerified c)
       || Before (LastVerified c) (AddDate now 0 (-6) 0),
     issue_not_verified);
    (String.eqb (Owner c) "", issue_no_owner) ].

(** One entry per failed check, in the order of the checks. *)
Definition failedChecks (c : SecurityControl) (now : Time) : list string :=
  map snd (filter fst (checks c now)).

(** The fixed mapping from issue text to recommendation, and its fallback. *)
Definition recommendationTable : list (string * string) :=
  [ (issue_no_evidence, "Provide evidence of control implementation");
    (issue_not_verified, "Schedule control verification");
    (issue_no_owner, "Assign control owner") ].

Definition recommendationFor (issue : string) : string :=
  match find (fun e => String.eqb (fst e) issue) recommendationTable with
  | Some e => snd e
  | None => ("Address: " ++ issue)%string
  end.

(** The confidence of a control with no evidence and three issues. In
    binary64 the product of 3 and 0.1 rounds up to 0.30000000000000004, and
    its difference from 0.5 is 0.19999999999999996 exactly, two units in the
    last place below the number that the literal 0.2 denotes. *)
Definition minConfidence : float64 :=
  (0.5 - float64_of_int 3 * 0.1)%float.

(** The result of validating [bareControl] in [demoWorld]. *)
Definition bareResult : ControlValidationResult :=
  resultAt bareControl (nextReading demoWorld)
    (nextReading (advance demoWorld 1)).

(** The registry of the four built-in controls, created and seeded in
    [demoWorld], and the world after that. *)
Definition builtinControls : ControlValidator :=
  seedControls (fst (CreateCommonControls demoWorld)).

Definition builtinControlsWorld : World :=
  snd (CreateCommonControls demoWorld).

(** A second control with the identifier of [bareControl], fully documented
    and partially implemented. *)
Definition bareTwin : SecurityControl :=
  mkSecurityControl "ctrl-100" "Twin" "" CategoryDetective TypeTechnical ""
    0.1%float "" "" "" "Security Team" StatusPartiallyImplemented
    (Date 2026 10 1 0 0 0) zero ["twin.pdf"] [].

(** The first lines of a report of a log that is not empty. *)
Definition controlReportHead : string :=
  ("=== Security Control Validation Report ===" ++ LF ++ LF
     ++ "Validation Results:" ++ LF)%string.

(** An implemented control with evidence and an owner, verified in
    September 2026, and the result of validating it in [demoWorld]. *)
Definition soundControl : SecurityControl :=
  mkSecurityControl "ctrl-200" "Sound" "" CategoryPreventive TypeTechnical ""
    0.2%float "" "" "" "Security Team" StatusImplemented
    (Date 2026 9 15 0 0 0) zero ["sound.pdf"] [].

Definition soundResult : ControlValidationResult :=
  resultAt soundControl (nextReading demoWorld)
    (nextReading (advance demoWorld 1)).

(** A control verified on 1 March 2026 at noon, and two instants: 30 August
    and 1 September 2026, both at midnight. Six months before the first is
    30 February, which [AddDate] normalises to 2 March; six months before
    the second is 1 March. *)
Definition marchControl : SecurityControl :=
  mkSecurityControl "ctrl-300" "March" "" CategoryPreventive TypeTechnical ""
    0.2%float "" "" "" "Security Team" StatusImplemented
    (Date 2026 3 1 12 0 0) zero ["march.pdf"] [].

Definition worldAt (t : Time) : World := mkWorld (fun _ => t) 0.

End ControlDefinitions.

(** ** The test registry *)

Section TestDefinitions.

Import validate.

(** The result of [validateControlTest], field by field. *)
Definition testResultAt (test : ControlTest) (idStamp validatedAt : Time)
  : ValidationResult :=
  mkValidationResult ("val-" ++ Format_20060102150405 idStamp)%string
    (ID test) (Name test) true "PASS" 0.8%float (1.0 - 0.8)%float []
    validatedAt.

(** The results of a run of [Validate] that starts at reading [k]. *)
Fixpoint testResultsFrom (clock : nat -> Time) (tests : list ControlTest)
  (k : nat) : list ValidationResult :=
  match tests with
  | [] => []
  | test :: tests' =>
      testResultAt test (clock k) (clock (S k))
        :: testResultsFrom clock tests' (S (S k))
  end.

(** The risk that remains, as the code computes it: the binary64 difference
    of 1.0 and 0.8. The literal 0.8 denotes 0x1.999999999999ap-1, a little
    above four fifths; its difference from 1.0 is exact and equals
    0x1.9999999999998p-3, which is 0.19999999999999996, whereas the literal
    0.2 denotes 0x1.999999999999ap-3. *)
Definition riskRemaining : float64 := (1.0 - 0.8)%float.

(** The registry of the four built-in tests, created and seeded in
    [demoWorld], and the world after that. *)
Definition builtinTests : ControlValidator :=
  seedTests (fst (CreateCommonControlTests demoWorld)).

Definition builtinTestsWorld : World := advance demoWorld 4.

(** The first built-in test, and a test of the same identifier and name that
    failed and differs in every other field. *)
Definition passedTest : ControlTest :=
  mkControlTest "test-001" "Access Control Verification"
    "Verify access control policies are enforced" MethodTesting
    ["Attempt unauthorized access"; "Verify access is denied";
     "Review access logs"]
    "Unauthorized access denied" "" true
    "All access controls functioning correctly"
    (Date 2026 10 31 12 0 0) "Security Team".

Definition failedTest : ControlTest :=
  mkControlTest "test-001" "Access Control Verification"
    "Another description" MethodInterview ["Ask the administrator"]
    "Unauthorized access denied" "Unauthorized access granted" false
    "Access control is broken" (Date 2025 1 1 0 0 0) "Auditor".

(** The first lines of a test report of [n] results that all passed, up to
    the success rate. *)
Definition testReportHead (n : Z) : string :=
  ("=== Security Control Validation Report ===" ++ LF ++ LF
     ++ "Validation Summary:" ++ LF
     ++ "  Total Tests: " ++ Sprintf_d n ++ LF
     ++ "  Passed: " ++ Sprintf_d n ++ LF
     ++ "  Failed: " ++ Sprintf_d 0 ++ LF)%string.

(** The detail entry of a passed result of a test, and the entries of a
    list of tests numbered from [i + 1]. *)
Definition passedEntry (i : Z) (test : ControlTest) : string :=
  ("  [" ++ Sprintf_d (i + 1) ++ "] " ++ checkMark ++ " " ++ Name test ++ LF
     ++ "      Control ID: " ++ ID test ++ LF
     ++ "      Result: PASS" ++ LF
     ++ "      Effectiveness: 80.0%" ++ LF
     ++ "      Risk Remaining: 20.0%" ++ LF
     ++ LF)%string.

Fixpoint passedEntries (i : Z) (tests : list ControlTest) : string :=
  match tests with
  | [] => ""
  | test :: tests' =>
      (passedEntry i test ++ passedEntries (i + 1) tests')%string
  end.

End TestDefinitions.


(** * Properties *)

(** ** Facts about binary64 arithmetic

    The comparisons of Go are those of IEEE-754: every comparison with a NaN
    is false. The lemmas below show that the numbers the validators compute
    are never NaN, so that "not below" can be read as "at or above". *)

Section Rounding.

Variables prec emax : Z.

Lemma shr_1_nonneg (mrs : shr_record) :
  0 <= shr_m mrs -> 0 <= shr_m (shr_1 mrs).
Proof.
  destruct mrs as [m r s]; simpl.
  destruct m as [|p|p]; [ | destruct p | destruct p ]; simpl; lia.
Qed.

Lemma iter_shr_1_nonneg (p : positive) :
  forall mrs, 0 <= shr_m mrs -> 0 <= shr_m (iter_pos shr_1 p mrs).
Proof.
  induction p as [p IH | p IH | ]; simpl; intros mrs H.
  - apply IH, IH, shr_1_nonneg, H.
  - apply IH, IH, H.
  - apply shr_1_nonneg, H.
Qed.

Lemma shr_nonneg (mrs : shr_record) (e n : Z) :
  0 <= shr_m mrs -> 0 <= shr_m (fst (shr mrs e n)).
Proof.
  intros H. destruct n; simpl; auto using iter_shr_1_nonneg.
Qed.

Lemma shr_m_of_loc (m : Z) (l : location) :
  shr_m (shr_record_of_loc m l) = m.
Proof. destruct l as [|[]]; reflexivity. Qed.

Lemma shr_fexp_nonneg (m e : Z) (l : location) :
  0 <= m -> 0 <= shr_m (fst (shr_fexp prec emax m e l)).
Proof.
  intros H. unfold shr_fexp. apply shr_nonneg.
  rewrite shr_m_of_loc. exact H.
Qed.

Lemma round_nearest_even_nonneg (m : Z) (l : location) :
  0 <= m -> 0 <= round_nearest_even m l.
Proof.
  intros H. destruct l as [|[]]; simpl; try lia.
  destruct (Z.even m); lia.
Qed.

Lemma binary_round_aux_not_nan (sx : bool) (mx ex : Z) (lx : location) :
  0 <= mx -> binary_round_aux prec emax sx mx ex lx <> S754_nan.
Proof.
  intros H. unfold binary_round_aux.
  pose proof (shr_fexp_nonneg mx ex lx H) as H1.
  destruct (shr_fexp prec emax mx ex lx) as [mrs' e']. simpl in H1.
  pose proof (shr_fexp_nonneg
                (round_nearest_even (shr_m mrs') (loc_of_shr_record mrs'))
                e' loc_Exact (round_nearest_even_nonneg _ _ H1)) as H2.
  destruct (shr_fexp prec emax _ e' loc_Exact) as [mrs'' e'']. simpl in H2.
  destruct (shr_m mrs'') as [|m|m].
  - discriminate.
  - destruct (e'' <=? emax - prec); discriminate.
  - lia.
Qed.

Lemma binary_round_not_nan (sx : bool) (mx : positive) (ex : Z) :
  binary_round prec emax sx mx ex <> S754_nan.
Proof.
  unfold binary_round.
  destruct (shl_align mx ex _) as [mz ez].
  apply binary_round_aux_not_nan. lia.
Qed.

Lemma binary_normalize_not_nan (m e : Z) (szero : bool) :
  binary_normalize prec emax m e szero <> S754_nan.
Proof.
  destruct m; simpl; try discriminate; apply binary_round_not_nan.
Qed.

Lemma SFmul_finite_not_nan (x : spec_float) (s : bool) (m : positive) (e : Z) :
  x <> S754_nan -> SFmul prec emax x (S754_finite s m e) <> S754_nan.
Proof.
  intros H. destruct x; simpl; try discriminate; try congruence.
  apply binary_round_aux_not_nan. lia.
Qed.

Lemma SFsub_finite_not_nan (s : bool) (m : positive) (e : Z) (y : spec_float) :
  y <> S754_nan -> SFsub prec emax (S754_finite s m e) y <> S754_nan.
Proof.
  intros H. destruct y; simpl; try discriminate; try congruence.
  apply binary_normalize_not_nan.
Qed.

End Rounding.

Lemma SFcompare_antisym (x y : spec_float) :
  SFcompare y x = option_map CompOpp (SFcompare x y).
Proof.
  destruct x as [sx|sx| |sx mx ex], y as [sy|sy| |sy my ey]; simpl;
    try reflexivity;
    try (destruct sx; reflexivity); try (destruct sy; reflexivity);
    try (destruct sx, sy; reflexivity).
  destruct sx, sy; try reflexivity; f_equal;
    rewrite (Z.compare_antisym ex ey);
    destruct (ex ?= ey); simpl; try reflexivity;
    rewrite (Pos.compare_cont_antisym mx my Eq); simpl;
    try rewrite CompOpp_involutive; reflexivity.
Qed.

Lemma SFcompare_not_nan (x y : spec_float) :
  x <> S754_nan -> y <> S754_nan -> exists c, SFcompare x y = Some c.
Proof.
  intros Hx Hy.
  destruct x, y; simpl; try congruence; eexists; reflexivity.
Qed.

(** For numbers, [!(y < x)] is [x <= y]. *)
Lemma leb_of_not_ltb (x y : float64) :
  notNaN x -> notNaN y -> (y <? x)%float = false -> (x <=? y)%float = true.
Proof.
  unfold notNaN. intros Hx Hy.
  rewrite ltb_spec, leb_spec. unfold SFltb, SFleb.
  rewrite (SFcompare_antisym (Prim2SF x) (Prim2SF y)).
  destruct (SFcompare_not_nan _ _ Hx Hy) as [c ->]. simpl.
  destruct c; simpl; congruence.
Qed.

Lemma finiteSF_tenth : finiteSF 0.1%float.
Proof. unfold finiteSF. vm_compute. eauto. Qed.

Lemma finiteSF_notNaN (x : float64) : finiteSF x -> notNaN x.
Proof. intros (s & m & e & H). unfold notNaN. rewrite H. discriminate. Qed.

Lemma notNaN_sub_mul (b : float64) (n : int) :
  finiteSF b -> notNaN (b - of_uint63 n * 0.1)%float.
Proof.
  intros (s & m & e & Hb). destruct finiteSF_tenth as (s' & m' & e' & Ht).
  unfold notNaN.
  rewrite sub_spec, mul_spec, of_uint63_spec, Hb, Ht.
  apply SFsub_finite_not_nan, SFmul_finite_not_nan, binary_normalize_not_nan.
Qed.

(** ** The control registry *)

Section ControlProperties.

Import control.

Ltac io_unfold := unfold bind, ret, time_Now in *; simpl in *.

Lemma identifyIssues_run (c : SecurityControl) (w : World) :
  identifyIssues c w =
    (issuesAt c (nextReading w),
     if IsZero (LastVerified c) then w else advance w 1).
Proof.
  unfold identifyIssues, notRecentlyVerified, issuesAt, staleAt, nextReading,
    advance.
  io_unfold.
  destruct (IsZero (LastVerified c)); simpl;
    destruct (len (Evidence c) =? 0);
    try destruct (Before (LastVerified c) _);
    destruct (String.eqb (Owner c) ""); reflexivity.
Qed.

Lemma validateControl_run (c : SecurityControl) (w : World) :
  validateControl c w =
    (resultAt c (nextReading w) (nextReading (advance w 1)),
     if IsZero (LastVerified c) then advance w 1 else advance w 2).
Proof.
  unfold validateControl, bind at 1. unfold time_Now at 1.
  unfold bind. rewrite identifyIssues_run. unfold ret, resultAt, advance.
  simpl. destruct (IsZero (LastVerified c)); reflexivity.
Qed.

(** *** Effectiveness (C1) *)

Lemma validateControlImplementation_status (c : SecurityControl) :
  validateControlImplementation c = statusEffectiveness (Status c).
Proof.
  unfold validateControlImplementation, statusEffectiveness.
  repeat match goal with
         | |- context [String.eqb ?a ?b] =>
             destruct (String.eqb_spec a b);
             destruct (string_dec a b); try contradiction
         end; reflexivity.
Qed.

(** Two controls of the same status get the same effectiveness, whatever
    their risk reduction, evidence or any other field. *)
Lemma effectiveness_ignores_other_fields (c1 c2 : SecurityControl) :
  Status c1 = Status c2 ->
  validateControlImplementation c1 = validateControlImplementation c2.
Proof.
  intros H. rewrite !validateControlImplementation_status, H. reflexivity.
Qed.

(** C1: the effectiveness of a validation is the table value of the status
    of the control and of nothing else: 0.9 for implemented, 0.6 for
    partially implemented, 0.0 for not implemented and 0.7 for every other
    status, deprecated included. This is what
    [validateControlImplementation] returns and what [validateControl]
    stores in its result; a control with the same status gets the same
    effectiveness, whatever its other fields. *)
Theorem C1_effectiveness_is_a_status_lookup
  (c : SecurityControl) (w : World) :
  validateControlImplementation c = statusEffectiveness (Status c)
  /\ Effectiveness (fst (validateControl c w))
     = statusEffectiveness (Status c)
  /\ (Status c = StatusImplemented ->
      Effectiveness (fst (validateControl c w)) = 0.9%float)
  /\ (Status c = StatusPartiallyImplemented ->
      Effectiveness (fst (validateControl c w)) = 0.6%float)
  /\ (Status c = StatusNotImplemented ->
      Effectiveness (fst (validateControl c w)) = 0.0%float)
  /\ (Status c <> StatusImplemented ->
      Status c <> StatusPartiallyImplemented ->
      Status c <> StatusNotImplemented ->
      Effectiveness (fst (validateControl c w)) = 0.7%float)
  /\ (Status c = StatusDeprecated ->
      Effectiveness (fst (validateControl c w)) = 0.7%float)
  /\ (forall (c' : SecurityControl) (w' : World),
         Status c' = Status c ->
         Effectiveness (fst (validateControl c' w'))
         = Effectiveness (fst (validateControl c w))).
Proof.
  assert (I : forall (c' : SecurityControl) (w' : World),
             Status c' = Status c ->
             Effectiveness (fst (validateControl c' w'))
             = Effectiveness (fst (validateControl c w))).
  { intros c' w' H. rewrite !validateControl_run. simpl.
    apply effectiveness_ignores_other_fields, H. }
  rewrite validateControl_run in *. simpl in *.
  rewrite validateControlImplementation_status in *.
  split; [reflexivity|]. split; [reflexivity|].
  unfold statusEffectiveness in *.
  repeat split; try exact I; intros;
    repeat match goal with
           | |- context [string_dec ?a ?b] => destruct (string_dec a b)
           end;
    try reflexivity; try contradiction;
    exfalso;
    unfold StatusImplemented, StatusPartiallyImplemented,
      StatusNotImplemented, StatusDeprecated in *;
    congruence.
Qed.

(** *** Status label (C2) *)

Lemma overallStatus_label (issues : list string) (effective : float64) :
  overallStatus issues effective = statusLabel (List.length issues) effective.
Proof.
  unfold overallStatus, statusLabel, len. destruct issues; reflexivity.
Qed.

Lemma statusLabel_cases (n : nat) (e : float64) :
  (statusLabel n e = "EFFECTIVE" <->
     n = 0%nat /\ (0.9 <=? e)%float = true)
  /\ (statusLabel n e = "PARTIALLY_EFFECTIVE" <->
        ~ (n = 0%nat /\ (0.9 <=? e)%float = true)
        /\ (0.7 <=? e)%float = true)
  /\ (statusLabel n e = "INEFFECTIVE" <->
        ~ (n = 0%nat /\ (0.9 <=? e)%float = true)
        /\ (0.7 <=? e)%float = false).
Proof.
  unfold statusLabel.
  destruct n as [|n]; simpl;
    destruct (0.9 <=? e)%float; destruct (0.7 <=? e)%float; simpl;
    repeat split; intros; try discriminate; try tauto;
    try (intros [? ?]; discriminate);
    try (destruct H as [? ?]; discriminate);
    try (destruct H as [H ?]; exfalso; apply H; split; reflexivity).
Qed.

(** C2: the status label of a result of a validation is [statusLabel] of
    its number of issues and its effectiveness: EFFECTIVE exactly when there
    is no issue and the effectiveness is at least 0.9, otherwise
    PARTIALLY_EFFECTIVE exactly when the effectiveness is at least 0.7,
    otherwise INEFFECTIVE; [overallStatus] looks at nothing else. *)
Theorem C2_status_label_from_issue_count_and_effectiveness
  (c : SecurityControl) (w : World) :
  let r := fst (validateControl c w) in
  ResultStatus r = statusLabel (List.length (Issues r)) (Effectiveness r)
  /\ (ResultStatus r = "EFFECTIVE" <->
        Issues r = [] /\ (0.9 <=? Effectiveness r)%float = true)
  /\ (ResultStatus r = "PARTIALLY_EFFECTIVE" <->
        ~ (Issues r = [] /\ (0.9 <=? Effectiveness r)%float = true)
        /\ (0.7 <=? Effectiveness r)%float = true)
  /\ (ResultStatus r = "INEFFECTIVE" <->
        ~ (Issues r = [] /\ (0.9 <=? Effectiveness r)%float = true)
        /\ (0.7 <=? Effectiveness r)%float = false)
  /\ (forall (issues : list string) (effective : float64),
         overallStatus issues effective
         = statusLabel (List.length issues) effective).
Proof.
  intros r.
  assert (E : ResultStatus r
              = statusLabel (List.length (Issues r)) (Effectiveness r)).
  { subst r. rewrite validateControl_run. simpl. apply overallStatus_label. }
  rewrite E. split; [reflexivity|].
  assert (L : Issues r = [] <-> List.length (Issues r) = 0%nat).
  { destruct (Issues r); simpl; split; intros; congruence. }
  rewrite L.
  destruct (statusLabel_cases (List.length (Issues r)) (Effectiveness r))
    as (H1 & H2 & H3).
  split; [exact H1|]. split; [exact H2|]. split; [exact H3|].
  intros issues effective. apply overallStatus_label.
Qed.

(** The result of validating [bareControl] in [demoWorld]. *)
Lemma validateControl_bare :
  fst (validateControl bareControl demoWorld) = bareResult.
Proof. reflexivity. Qed.

(** *** Confidence (C3) *)

Lemma len_pos_nonEmpty {A : Type} (l : list A) : (0 <? len l) = nonEmpty l.
Proof. destruct l; reflexivity. Qed.

Lemma calculateConfidence_spec (c : SecurityControl) (issues : list string) :
  calculateConfidence c issues
  = confidenceSpec (nonEmpty (Evidence c)) (len issues).
Proof.
  unfold calculateConfidence, confidenceSpec, rawConfidence, clamp01.
  rewrite len_pos_nonEmpty.
  set (x := if len issues =? 0 then _ else _).
  destruct (x <? 0)%float; [reflexivity|].
  destruct (1 <? x)%float; reflexivity.
Qed.

Lemma notNaN_rawConfidence (hasEvidence : bool) (issueCount : Z) :
  notNaN (rawConfidence hasEvidence issueCount).
Proof.
  unfold rawConfidence, float64_of_int.
  destruct (issueCount =? 0).
  - destruct hasEvidence; apply finiteSF_notNaN; unfold finiteSF;
      vm_compute; eauto.
  - apply notNaN_sub_mul.
    destruct hasEvidence; unfold finiteSF; vm_compute; eauto.
Qed.

Lemma clamp01_bounds (x : float64) :
  notNaN x ->
  (0 <=? clamp01 x)%float = true /\ (clamp01 x <=? 1)%float = true.
Proof.
  intros Hx. unfold clamp01.
  assert (H0 : notNaN 0%float) by (unfold notNaN; vm_compute; discriminate).
  assert (H1 : notNaN 1%float) by (unfold notNaN; vm_compute; discriminate).
  destruct (x <? 0)%float eqn:Elo; [split; reflexivity|].
  destruct (1 <? x)%float eqn:Ehi; [split; reflexivity|].
  split; apply leb_of_not_ltb; assumption.
Qed.

(** The two tests of the clamp, which hold of any float, a NaN included. *)
Lemma clamp01_range (x : float64) :
  (clamp01 x <? 0)%float = false /\ (1 <? clamp01 x)%float = false.
Proof.
  unfold clamp01.
  destruct (x <? 0)%float eqn:Elo; [split; reflexivity|].
  destruct (1 <? x)%float eqn:Ehi; [split; reflexivity|].
  split; assumption.
Qed.

(** C3: the confidence is the clamped value of 0.5, plus 0.2 when the control
    has evidence, plus 0.3 when there is no issue and minus 0.1 times the
    number of issues otherwise; whatever the number of issues it is neither
    below 0 nor above 1. *)
Theorem C3_confidence_formula_and_clamp
  (c : SecurityControl) (issues : list string) :
  calculateConfidence c issues
  = clamp01 (rawConfidence (nonEmpty (Evidence c)) (len issues))
  /\ (0 <=? calculateConfidence c issues)%float = true
  /\ (calculateConfidence c issues <=? 1)%float = true
  /\ (calculateConfidence c issues <? 0)%float = false
  /\ (1 <? calculateConfidence c issues)%float = false.
Proof.
  rewrite calculateConfidence_spec. unfold confidenceSpec.
  split; [reflexivity|].
  pose proof (notNaN_rawConfidence (nonEmpty (Evidence c)) (len issues)) as N.
  destruct (clamp01_bounds _ N) as [Hlo Hhi].
  destruct (clamp01_range (rawConfidence (nonEmpty (Evidence c)) (len issues)))
    as [Hnlo Hnhi].
  repeat split; assumption.
Qed.

(** *** Issues and recommendations (C8) *)

Lemma issuesAt_failedChecks (c : SecurityControl) (now : Time) :
  issuesAt c now = failedChecks c now.
Proof.
  unfold issuesAt, failedChecks, checks, staleAt, len.
  destruct (Evidence c); simpl;
    destruct (IsZero (LastVerified c) || Before _ _); simpl;
    destruct (String.eqb (Owner c) ""); reflexivity.
Qed.

Lemma recommendation_table (issue : string) :
  recommendation issue = recommendationFor issue.
Proof.
  unfold recommendation, recommendationFor, recommendationTable.
  cbn [find fst snd].
  rewrite (String.eqb_sym issue_no_evidence),
    (String.eqb_sym issue_not_verified), (String.eqb_sym issue_no_owner).
  destruct (String.eqb issue issue_no_evidence); [reflexivity|].
  destruct (String.eqb issue issue_not_verified); [reflexivity|].
  destruct (String.eqb issue issue_no_owner); reflexivity.
Qed.

Lemma fold_left_snoc_map {A B : Type} (f : A -> B) (l : list A) :
  forall acc, fold_left (fun acc a => acc ++ [f a]) l acc = acc ++ map f l.
Proof.
  induction l as [|a l IH]; intros acc; simpl.
  - symmetry. apply app_nil_r.
  - rewrite IH, <- app_assoc. reflexivity.
Qed.

Lemma generateRecommendations_map (c : SecurityControl) (issues : list string) :
  generateRecommendations c issues = map recommendationFor issues.
Proof.
  unfold generateRecommendations. rewrite fold_left_snoc_map. simpl.
  apply map_ext, recommendation_table.
Qed.

(** C8: the issues of a validation are the failed ones among the three
    checks (no evidence; never verified, or verified earlier than six months
    before the clock reading; no owner), one entry each, in that order; the
    recommendations are the issues mapped one by one through the fixed table
    with its "Address: " fallback, so the two lists have the same length. *)
Theorem C8_issues_and_recommendations (c : SecurityControl) (w : World) :
  fst (identifyIssues c w) = failedChecks c (nextReading w)
  /\ Issues (fst (validateControl c w))
     = failedChecks c (nextReading (advance w 1))
  /\ Recommendations (fst (validateControl c w))
     = map recommendationFor (Issues (fst (validateControl c w)))
  /\ List.length (Recommendations (fst (validateControl c w)))
     = List.length (Issues (fst (validateControl c w)))
  /\ (forall issues : list string,
         generateRecommendations c issues = map recommendationFor issues
         /\ List.length (generateRecommendations c issues)
            = List.length issues).
Proof.
  rewrite identifyIssues_run, validateControl_run. simpl.
  rewrite !generateRecommendations_map, !issuesAt_failedChecks, length_map.
  repeat split; try reflexivity.
  - apply generateRecommendations_map.
  - rewrite generateRecommendations_map. apply length_map.
Qed.

(** *** The lower bound of the confidence of a result (C9) *)

Lemma minConfidence_value :
  minConfidence = 0.19999999999999996%float
  /\ (minConfidence <? 0.2)%float = true
  /\ (0 <? minConfidence)%float = true.
Proof. vm_compute. repeat split. Qed.

Lemma issuesAt_length (c : SecurityControl) (now : Time) :
  (List.length (issuesAt c now) <= 3)%nat.
Proof.
  unfold issuesAt.
  destruct (len (Evidence c) =? 0); destruct (staleAt c now);
    destruct (String.eqb (Owner c) ""); simpl; lia.
Qed.

Lemma confidence_of_issuesAt (c : SecurityControl) (now : Time) :
  (minConfidence <=? calculateConfidence c (issuesAt c now))%float = true
  /\ (0 <? calculateConfidence c (issuesAt c now))%float = true
  /\ (rawConfidence (nonEmpty (Evidence c)) (len (issuesAt c now)) <? 0)%float
     = false.
Proof.
  rewrite calculateConfidence_spec. unfold issuesAt, len.
  destruct (Evidence c) as [|e es]; simpl;
    destruct (staleAt c now); destruct (String.eqb (Owner c) "");
    vm_compute; repeat split.
Qed.

(** C9, as the code has it: [identifyIssues] returns at most three issues,
    and for such a list the confidence is at least 0.5 - float64(3) * 0.1,
    which in binary64 is 0.19999999999999996, just below the literal 0.2 and
    above 0; the value before the clamp is never negative, so the clamp to
    0.0 is not taken. This holds of every result of [validateControl]. *)
Theorem C9_confidence_lower_bound (c : SecurityControl) (w : World) :
  let issues := fst (identifyIssues c w) in
  let r := fst (validateControl c w) in
  (List.length issues <= 3)%nat
  /\ (minConfidence <=? calculateConfidence c issues)%float = true
  /\ (0 <? calculateConfidence c issues)%float = true
  /\ calculateConfidence c issues
     = clamp01 (rawConfidence (nonEmpty (Evidence c)) (len issues))
  /\ (rawConfidence (nonEmpty (Evidence c)) (len issues) <? 0)%float = false
  /\ minConfidence = 0.19999999999999996%float
  /\ (minConfidence <? 0.2)%float = true
  /\ (List.length (Issues r) <= 3)%nat
  /\ (minConfidence <=? Confidence r)%float = true
  /\ (0 <? Confidence r)%float = true.
Proof.
  intros issues r. subst issues r.
  rewrite identifyIssues_run, validateControl_run. simpl.
  destruct (confidence_of_issuesAt c (nextReading w)) as (Hmin & Hpos & Hraw).
  destruct (confidence_of_issuesAt c (wall w (S (tick w))))
    as (Hmin' & Hpos' & _).
  destruct minConfidence_value as (Hv & Hlt & _).
  repeat split; try assumption;
    try apply issuesAt_length; try apply calculateConfidence_spec.
Qed.

(** The bound 0.2 itself fails: the control without evidence, verification
    date and owner gets three issues and the confidence
    0.5 - 0.30000000000000004 = 0.19999999999999996, which is below 0.2. *)
Lemma C9_confidence_below_literal_bound :
  fst (validateControl bareControl demoWorld) = bareResult
  /\ fst (identifyIssues bareControl demoWorld) = Issues bareResult
  /\ List.length (Issues bareResult) = 3%nat
  /\ calculateConfidence bareControl (Issues bareResult)
     = 0.19999999999999996%float
  /\ Confidence bareResult = 0.19999999999999996%float
  /\ (0.2 <=? Confidence bareResult)%float = false
  /\ (Confidence bareResult <? 0.2)%float = true.
Proof. vm_compute. repeat split. Qed.

(** The confidence for longer issue lists, which [identifyIssues] never
    returns: with five issues and no evidence the value before the clamp is
    exactly 0, with six it is negative and the clamp returns 0. *)
Example confidence_five_issues :
  rawConfidence false 5 = 0%float
  /\ calculateConfidence bareControl ["a"; "b"; "c"; "d"; "e"] = 0%float.
Proof. vm_compute. split; reflexivity. Qed.

Example confidence_six_issues :
  (rawConfidence false 6 <? 0)%float = true
  /\ calculateConfidence bareControl ["a"; "b"; "c"; "d"; "e"; "f"] = 0%float.
Proof. vm_compute. split; reflexivity. Qed.

(** *** Lookup by identifier (C6) *)

Lemma lookupControl_none (cs : list SecurityControl) (id : string) :
  Forall (fun c => ID c <> id) cs -> lookupControl cs id = None.
Proof.
  induction 1 as [|c cs Hc _ IH]; simpl; [reflexivity|].
  destruct (String.eqb_spec (ID c) id); [contradiction | exact IH].
Qed.

Lemma lookupControl_first (pre post : list SecurityControl)
  (c : SecurityControl) (id : string) :
  Forall (fun c' => ID c' <> id) pre -> ID c = id ->
  lookupControl (pre ++ c :: post) id = Some c.
Proof.
  intros Hpre Hc. induction Hpre as [|c' pre Hc' _ IH]; simpl.
  - rewrite Hc, String.eqb_refl. reflexivity.
  - destruct (String.eqb_spec (ID c') id); [contradiction | exact IH].
Qed.

(** C6: when no held control has the identifier, the lookup
    [getControlByID] finds nothing; when several held controls have the
    identifier, it finds the first of them in insertion order. *)
Theorem C6_unknown_id_and_first_match
  (v : ControlValidator) (id : string) :
  (Forall (fun c => ID c <> id) (controls v) -> getControlByID v id = None)
  /\ (forall (pre post : list SecurityControl) (c : SecurityControl),
         controls v = pre ++ c :: post ->
         Forall (fun c' => ID c' <> id) pre ->
         ID c = id ->
         getControlByID v id = Some c).
Proof.
  unfold getControlByID. split.
  - apply lookupControl_none.
  - intros pre post c Hv Hpre Hc. rewrite Hv.
    apply lookupControl_first; assumption.
Qed.

Lemma C6_unknown_id_and_first_match_witness :
  getControlByID (seedControls [bareControl; bareTwin]) "ctrl-999" = None
  /\ getControlByID (seedControls [bareTwin; bareControl; bareTwin])
       "ctrl-100" = Some bareTwin.
Proof.
  split.
  - apply (proj1 (C6_unknown_id_and_first_match
                    (seedControls [bareControl; bareTwin]) "ctrl-999")).
    repeat constructor; discriminate.
  - apply (proj2 (C6_unknown_id_and_first_match
                    (seedControls [bareTwin; bareControl; bareTwin])
                    "ctrl-100")
             [] [bareControl; bareTwin] bareTwin);
      [reflexivity | constructor | reflexivity].
Defined.

(** *** The built-in controls *)

(** The four built-in controls, created in [demoWorld] and validated in the
    world after that: each is EFFECTIVE with effectiveness 0.9, confidence
    1.0 and no issue; the registry seeded with them holds no "ctrl-999". *)
Example builtin_controls_scenario :
  map (fun c =>
         let r := fst (validateControl c builtinControlsWorld) in
         (ControlID r, ResultStatus r, Effectiveness r, Confidence r,
          Issues r))
    (fst (CreateCommonControls demoWorld))
  = [ ("ctrl-001", "EFFECTIVE", 0.9%float, 1%float, []);
      ("ctrl-002", "EFFECTIVE", 0.9%float, 1%float, []);
      ("ctrl-003", "EFFECTIVE", 0.9%float, 1%float, []);
      ("ctrl-004", "EFFECTIVE", 0.9%float, 1%float, []) ]
  /\ getControlByID builtinControls "ctrl-999" = None
  /\ results builtinControls = [].
Proof. vm_compute. repeat split. Qed.

End ControlProperties.

(** ** The test registry *)

Section TestProperties.

Import validate.

(** The FAIL branch is not taken: the result is the one first built. *)
Lemma validateControlTest_run (test : ControlTest) (w : World) :
  validateControlTest test w
  = (testResultAt test (nextReading w) (nextReading (advance w 1)),
     advance w 2).
Proof. reflexivity. Qed.

Lemma validateAll_run (tests : list ControlTest) :
  forall (acc : list ValidationResult) (w : World),
    validateAll tests acc w
    = (acc ++ testResultsFrom (wall w) tests (tick w),
       advance w (2 * List.length tests)).
Proof.
  induction tests as [|test tests IH]; intros acc w.
  - simpl. unfold ret, advance. rewrite app_nil_r. destruct w; reflexivity.
  - cbn [validateAll]. unfold bind. rewrite validateControlTest_run, IH.
    rewrite <- app_assoc. unfold advance, nextReading. simpl.
    do 2 f_equal. lia.
Qed.

Lemma Validate_run (v : ControlValidator) (w : World) :
  Validate v w
  = (testResultsFrom (wall w) (controls v) (tick w),
     mkControlValidator (controls v) (validation v)
       (testResultsFrom (wall w) (controls v) (tick w)),
     advance w (2 * List.length (controls v))).
Proof.
  unfold Validate, bind, ret. rewrite validateAll_run. reflexivity.
Qed.

Lemma testResultsFrom_Forall2 (P : ControlTest -> ValidationResult -> Prop)
  (clock : nat -> Time) (tests : list ControlTest) :
  (forall test t1 t2, P test (testResultAt test t1 t2)) ->
  forall k, Forall2 P tests (testResultsFrom clock tests k).
Proof.
  intros HP. induction tests as [|test tests IH]; intros k; simpl;
    constructor; auto.
Qed.

Lemma testResultsFrom_Forall (P : ValidationResult -> Prop)
  (clock : nat -> Time) (tests : list ControlTest) :
  (forall test t1 t2, P (testResultAt test t1 t2)) ->
  forall k, Forall P (testResultsFrom clock tests k).
Proof.
  intros HP. induction tests as [|test tests IH]; intros k; simpl;
    constructor; auto.
Qed.

(** *** What [Validate] produces (C4) *)

Lemma riskRemaining_value :
  riskRemaining = 0.19999999999999996%float
  /\ riskRemaining = 0x1.9999999999998p-3%float
  /\ 0.2%float = 0x1.999999999999ap-3%float
  /\ (riskRemaining =? 0.2)%float = false
  /\ (riskRemaining <? 0.2)%float = true.
Proof. vm_compute. repeat split. Qed.

(** C4, as the code has it: [Validate] produces one result per held test, in
    insertion order; every result carries the identifier and the name of its
    test, pass = true, the label "PASS", effectiveness 0.8, no
    recommendation, and as risk-remaining the binary64 value of 1.0 - 0.8,
    which is 0.19999999999999996 and not the literal 0.2. No result carries
    the label "FAIL". *)
Theorem C4_validate_results (v : ControlValidator) (w : World) :
  Forall2 (fun test r =>
             ControlID r = ID test
             /\ ControlName r = Name test
             /\ TestPassed r = true
             /\ ValidationResultLabel r = "PASS"
             /\ ValidationResultLabel r <> "FAIL"
             /\ Effectiveness r = 0.8%float
             /\ RiskRemaining r = riskRemaining
             /\ RiskRemaining r = 0.19999999999999996%float
             /\ Recommendations r = [])
    (controls v) (fst (fst (Validate v w)))
  /\ List.length (fst (fst (Validate v w))) = List.length (controls v).
Proof.
  rewrite Validate_run. simpl.
  assert (F : Forall2 (fun test r =>
             ControlID r = ID test
             /\ ControlName r = Name test
             /\ TestPassed r = true
             /\ ValidationResultLabel r = "PASS"
             /\ ValidationResultLabel r <> "FAIL"
             /\ Effectiveness r = 0.8%float
             /\ RiskRemaining r = riskRemaining
             /\ RiskRemaining r = 0.19999999999999996%float
             /\ Recommendations r = [])
            (controls v) (testResultsFrom (wall w) (controls v) (tick w))).
  { apply testResultsFrom_Forall2. intros test t1 t2. simpl.
    repeat split; try reflexivity. discriminate. }
  split; [exact F|].
  symmetry. exact (Forall2_length F).
Qed.

(** The risk-remaining of the four built-in results is not 0.2. *)
Lemma C4_risk_remaining_is_not_the_literal :
  List.length (fst (fst (Validate builtinTests builtinTestsWorld))) = 4%nat
  /\ map (fun r => (RiskRemaining r =? 0.2)%float)
       (fst (fst (Validate builtinTests builtinTestsWorld)))
     = [false; false; false; false]
  /\ map RiskRemaining (fst (fst (Validate builtinTests builtinTestsWorld)))
     = [0.19999999999999996%float; 0.19999999999999996%float;
        0.19999999999999996%float; 0.19999999999999996%float].
Proof. vm_compute. repeat split. Qed.

(** *** Risk remaining and effectiveness (C7) *)

(** C7: in every result of the test registry, from [Validate] or from
    [ValidateControl], the risk-remaining is 1 minus the effectiveness, and
    the two add up to exactly 1.0. *)
Theorem C7_risk_remaining_complements_effectiveness
  (v : ControlValidator) (test : ControlTest) (w : World) :
  Forall (fun r =>
            RiskRemaining r = (1.0 - Effectiveness r)%float
            /\ (RiskRemaining r + Effectiveness r)%float = 1.0%float
            /\ (RiskRemaining r + Effectiveness r =? 1.0)%float = true)
    (fst (fst (Validate v w)))
  /\ RiskRemaining (fst (validate.ValidateControl v test w))
     = (1.0 - Effectiveness (fst (validate.ValidateControl v test w)))%float
  /\ (RiskRemaining (fst (validate.ValidateControl v test w))
      + Effectiveness (fst (validate.ValidateControl v test w)))%float
     = 1.0%float.
Proof.
  rewrite Validate_run. unfold validate.ValidateControl.
  rewrite validateControlTest_run. simpl.
  split; [|split; reflexivity].
  apply testResultsFrom_Forall. intros t t1 t2. simpl.
  repeat split.
Qed.

Lemma builtinTestsWorld_created :
  snd (CreateCommonControlTests demoWorld) = builtinTestsWorld.
Proof. reflexivity. Qed.

(** *** Only the identifier and the name of a test matter (C10) *)

(** C10: two tests with the same identifier and the same name get the same
    result at the same clock, whatever their method, steps, expected and
    actual result, passed flag, notes, tester and test date; the label is
    "PASS" also for a test whose passed flag is false. *)
Theorem C10_result_depends_on_id_and_name_only
  (t1 t2 : ControlTest) (w : World) :
  ID t1 = ID t2 ->
  Name t1 = Name t2 ->
  validateControlTest t1 w = validateControlTest t2 w
  /\ ValidationResultLabel (fst (validateControlTest t1 w)) = "PASS"
  /\ ValidationResultLabel (fst (validateControlTest t2 w)) = "PASS"
  /\ TestPassed (fst (validateControlTest t2 w)) = true.
Proof.
  intros Hid Hname. rewrite !validateControlTest_run.
  unfold testResultAt. rewrite Hid, Hname. simpl. repeat split.
Qed.

Lemma C10_result_depends_on_id_and_name_only_witness :
  validateControlTest passedTest demoWorld
  = validateControlTest failedTest demoWorld
  /\ ValidationResultLabel (fst (validateControlTest passedTest demoWorld))
     = "PASS"
  /\ ValidationResultLabel (fst (validateControlTest failedTest demoWorld))
     = "PASS"
  /\ TestPassed (fst (validateControlTest failedTest demoWorld)) = true.
Proof.
  exact (C10_result_depends_on_id_and_name_only passedTest failedTest
           demoWorld eq_refl eq_refl).
Defined.

(** *** The result log of the test registry (C5) *)

(** C5, as the code has it: [Validate] of the test registry stores the
    results of the call in place of the earlier log and leaves the tests
    untouched, so that the log after a call is what the call returned,
    whatever the log held before, and after two calls it holds the results
    of the second call only. *)
Theorem C5_result_logs :
  (forall (v : ControlValidator) (w : World),
      results (snd (fst (Validate v w))) = fst (fst (Validate v w))
      /\ controls (snd (fst (Validate v w))) = controls v)
  /\ (forall (v : ControlValidator) (w : World),
         results
           (snd (fst (Validate (snd (fst (Validate v w)))
                        (snd (Validate v w)))))
         = fst (fst (Validate (snd (fst (Validate v w)))
                       (snd (Validate v w)))))
  /\ (forall (v : ControlValidator) (earlier : list ValidationResult)
             (w : World),
         results (snd (fst (Validate
                              (mkControlValidator (controls v) (validation v)
                                 earlier) w)))
         = results (snd (fst (Validate v w)))).
Proof.
  split; [|split].
  - intros v w. rewrite Validate_run. auto.
  - intros v w. rewrite !Validate_run. reflexivity.
  - intros v earlier w. rewrite !Validate_run. reflexivity.
Qed.

(** Two calls of [Validate] on the four built-in tests: the log holds the
    four results of the second call, not the eight results of both. *)
Lemma C5_validate_replaces_the_log :
  List.length (fst (fst (Validate builtinTests builtinTestsWorld))) = 4%nat
  /\ List.length
       (fst (fst (Validate builtinTests builtinTestsWorld))
          ++ fst (fst (Validate
                         (snd (fst (Validate builtinTests builtinTestsWorld)))
                         (snd (Validate builtinTests builtinTestsWorld)))))
     = 8%nat
  /\ List.length
       (results
          (snd (fst (Validate
                       (snd (fst (Validate builtinTests builtinTestsWorld)))
                       (snd (Validate builtinTests builtinTestsWorld))))))
     = 4%nat
  /\ map ResultID
       (results
          (snd (fst (Validate
                       (snd (fst (Validate builtinTests builtinTestsWorld)))
                       (snd (Validate builtinTests builtinTestsWorld))))))
     = ["val-20261031120012"; "val-20261031120014"; "val-20261031120016";
        "val-20261031120018"]
  /\ map ResultID (fst (fst (Validate builtinTests builtinTestsWorld)))
     = ["val-20261031120004"; "val-20261031120006"; "val-20261031120008";
        "val-20261031120010"].
Proof. vm_compute. repeat split. Qed.

End TestProperties.


(** * Further properties of the code *)

(** ** Strings and loops *)

Lemma append_assoc (a b c : string) :
  ((a ++ b) ++ c)%string = (a ++ (b ++ c))%string.
Proof. induction a as [|x a IH]; simpl; [reflexivity | now rewrite IH]. Qed.

Lemma append_nil_r (a : string) : (a ++ "")%string = a.
Proof. induction a as [|x a IH]; simpl; [reflexivity | now rewrite IH]. Qed.

Lemma rangeFold_snoc {A S : Type} (body : S -> Z -> A -> S) (l : list A)
  (a : A) :
  forall (i : Z) (s : S),
    rangeFold body i (l ++ [a]) s
    = body (rangeFold body i l s) (i + len l) a.
Proof.
  induction l as [|x l IH]; intros i s; simpl.
  - unfold len. simpl. now rewrite Z.add_0_r.
  - rewrite IH. f_equal. unfold len. simpl List.length. lia.
Qed.

(** ** The control registry *)

Section ControlFurther.

Import control.

Lemma lookupControl_app (cs1 cs2 : list SecurityControl) (id : string) :
  lookupControl (cs1 ++ cs2) id
  = match lookupControl cs1 id with
    | Some c => Some c
    | None => lookupControl cs2 id
    end.
Proof.
  induction cs1 as [|c cs1 IH]; simpl; [reflexivity|].
  destruct (String.eqb (ID c) id); [reflexivity | exact IH].
Qed.

Lemma lookupControl_ID (cs : list SecurityControl) (id : string)
  (c : SecurityControl) :
  lookupControl cs id = Some c -> ID c = id /\ In c cs.
Proof.
  induction cs as [|c0 cs IH]; simpl; [discriminate|].
  destruct (String.eqb_spec (ID c0) id) as [E|E].
  - intros H. injection H as <-. auto.
  - intros H. destruct (IH H). auto.
Qed.

(** X1: after [AddControl] the lookup of an identifier that was already held
    still gives the control found before, also when the added control has
    the same identifier; an identifier that was not held is found exactly
    when it is that of the added control. The result log is untouched. *)
Theorem X1_lookup_after_AddControl
  (v : ControlValidator) (c : SecurityControl) (id : string) :
  GetControl (AddControl v c) id
  = match GetControl v id with
    | Some c0 => Some c0
    | None => if String.eqb (ID c) id then Some c else None
    end
  /\ GetValidationResults (AddControl v c) = GetValidationResults v.
Proof.
  split; [|reflexivity].
  unfold GetControl, getControlByID, AddControl. simpl.
  rewrite lookupControl_app. simpl. reflexivity.
Qed.

(** X2: [GetControlsByCategory] returns exactly the held controls of the
    category, and adding a control extends the answer at its end when the
    category matches and leaves it as it was otherwise; the new registry
    has no control of any category. *)
Theorem X2_GetControlsByCategory_and_AddControl
  (v : ControlValidator) (c : SecurityControl) (category : ControlCategory) :
  GetControlsByCategory (AddControl v c) category
  = GetControlsByCategory v category
      ++ (if String.eqb (Category c) category then [c] else [])
  /\ (forall x : SecurityControl,
         In x (GetControlsByCategory v category)
         <-> In x (GetControls v) /\ Category x = category)
  /\ GetControlsByCategory NewControlValidator category = [].
Proof.
  unfold GetControlsByCategory, AddControl, GetControls. simpl.
  split; [|split; [|reflexivity]].
  - rewrite filter_app. simpl.
    destruct (String.eqb (Category c) category); reflexivity.
  - intros x. rewrite filter_In, String.eqb_eq. reflexivity.
Qed.

(** X3: [GetControlsByStatus] returns exactly the held controls of the
    status, and adding a control extends the answer at its end when the
    status matches and leaves it as it was otherwise. *)
Theorem X3_GetControlsByStatus_and_AddControl
  (v : ControlValidator) (c : SecurityControl) (status : ControlStatus) :
  GetControlsByStatus (AddControl v c) status
  = GetControlsByStatus v status
      ++ (if String.eqb (Status c) status then [c] else [])
  /\ (forall x : SecurityControl,
         In x (GetControlsByStatus v status)
         <-> In x (GetControls v) /\ Status x = status)
  /\ GetControlsByStatus NewControlValidator status = [].
Proof.
  unfold GetControlsByStatus, AddControl, GetControls. simpl.
  split; [|split; [|reflexivity]].
  - rewrite filter_app. simpl.
    destruct (String.eqb (Status c) status); reflexivity.
  - intros x. rewrite filter_In, String.eqb_eq. reflexivity.
Qed.

Lemma statusLabel_of_table (n : nat) :
  statusLabel n 0.9%float
  = (if Nat.eqb n 0 then "EFFECTIVE" else "PARTIALLY_EFFECTIVE")
  /\ statusLabel n 0.6%float = "INEFFECTIVE"
  /\ statusLabel n 0.0%float = "INEFFECTIVE"
  /\ statusLabel n 0.7%float = "PARTIALLY_EFFECTIVE".
Proof. destruct n; vm_compute; repeat split. Qed.

Lemma statusEffectiveness_cases (s : ControlStatus) :
  (s = StatusImplemented /\ statusEffectiveness s = 0.9%float)
  \/ (s = StatusPartiallyImplemented /\ statusEffectiveness s = 0.6%float)
  \/ (s = StatusNotImplemented /\ statusEffectiveness s = 0.0%float)
  \/ (s <> StatusImplemented /\ s <> StatusPartiallyImplemented
      /\ s <> StatusNotImplemented /\ statusEffectiveness s = 0.7%float).
Proof.
  unfold statusEffectiveness.
  destruct (string_dec s StatusImplemented); [auto|].
  destruct (string_dec s StatusPartiallyImplemented); [auto|].
  destruct (string_dec s StatusNotImplemented); [auto|].
  right; right; right. auto.
Qed.

Lemma nonEmpty_length {A : Type} (l : list A) :
  Nat.eqb (List.length l) 0 = negb (nonEmpty l).
Proof. destruct l; reflexivity. Qed.

Ltac status_clash :=
  exfalso;
  unfold StatusImplemented, StatusPartiallyImplemented,
    StatusNotImplemented, StatusDeprecated in *;
  congruence.

(** X4: the label that [validateControl] gives follows from the status of
    the control: an implemented control is EFFECTIVE without issues and
    PARTIALLY_EFFECTIVE with issues; a partially implemented control is
    always INEFFECTIVE, like one that is not implemented; a control of any
    other status is always PARTIALLY_EFFECTIVE. *)
Theorem X4_label_by_status (c : SecurityControl) (w : World) :
  let r := fst (validateControl c w) in
  (Status c = StatusImplemented ->
   ResultStatus r
   = if nonEmpty (Issues r) then "PARTIALLY_EFFECTIVE" else "EFFECTIVE")
  /\ (Status c = StatusPartiallyImplemented ->
      ResultStatus r = "INEFFECTIVE")
  /\ (Status c = StatusNotImplemented -> ResultStatus r = "INEFFECTIVE")
  /\ (Status c <> StatusImplemented ->
      Status c <> StatusPartiallyImplemented ->
      Status c <> StatusNotImplemented ->
      ResultStatus r = "PARTIALLY_EFFECTIVE").
Proof.
  intros r. subst r. rewrite validateControl_run. simpl.
  rewrite overallStatus_label, validateControlImplementation_status.
  set (issues := issuesAt c _).
  destruct (statusLabel_of_table (List.length issues)) as (L9 & L6 & L0 & L7).
  rewrite nonEmpty_length in L9.
  destruct (statusEffectiveness_cases (Status c))
    as [[S E]|[[S E]|[[S E]|(S1 & S2 & S3 & E)]]]; rewrite E;
    repeat split; intros; try assumption; try contradiction;
    try status_clash.
  rewrite L9. destruct (nonEmpty _); reflexivity.
Qed.

Lemma issuesAt_nil (c : SecurityControl) (now : Time) :
  issuesAt c now = [] ->
  nonEmpty (Evidence c) = true
  /\ staleAt c now = false
  /\ String.eqb (Owner c) "" = false.
Proof.
  unfold issuesAt, len.
  destruct (Evidence c); simpl; [discriminate|].
  destruct (staleAt c now); simpl; [discriminate|].
  destruct (String.eqb (Owner c) ""); simpl; [discriminate|]. auto.
Qed.

(** The result of validating [soundControl] in [demoWorld]. *)
Lemma validateControl_sound :
  validateControl soundControl demoWorld
  = (soundResult, advance demoWorld 2).
Proof. reflexivity. Qed.

(** X5: a result of [validateControl] labelled EFFECTIVE has no issue and no
    recommendation, effectiveness 0.9 and confidence exactly 1.0; the
    control validated is implemented, has evidence, an owner and a
    verification date. *)
Theorem X5_effective_results (c : SecurityControl) (w : World) :
  ResultStatus (fst (validateControl c w)) = "EFFECTIVE" ->
  Issues (fst (validateControl c w)) = []
  /\ Recommendations (fst (validateControl c w)) = []
  /\ Effectiveness (fst (validateControl c w)) = 0.9%float
  /\ Confidence (fst (validateControl c w)) = 1%float
  /\ Status c = StatusImplemented
  /\ Evidence c <> []
  /\ Owner c <> ""
  /\ IsZero (LastVerified c) = false.
Proof.
  rewrite validateControl_run. simpl. intros L.
  rewrite overallStatus_label, validateControlImplementation_status in L.
  rewrite validateControlImplementation_status.
  set (issues := issuesAt c _) in *.
  destruct (statusLabel_of_table (List.length issues)) as (L9 & L6 & L0 & L7).
  destruct (statusEffectiveness_cases (Status c))
    as [[S E]|[[S E]|[[S E]|(S1 & S2 & S3 & E)]]]; rewrite E in *;
    try (rewrite L6 in L; discriminate);
    try (rewrite L0 in L; discriminate);
    try (rewrite L7 in L; discriminate).
  rewrite L9 in L.
  assert (N : issues = []).
  { destruct issues; [reflexivity | discriminate]. }
  destruct (issuesAt_nil _ _ N) as (Hev & Hst & Hown).
  rewrite calculateConfidence_spec, N, Hev.
  repeat split; try reflexivity; try assumption.
  - destruct (Evidence c); [discriminate | congruence].
  - apply String.eqb_neq, Hown.
  - unfold staleAt in Hst. destruct (IsZero (LastVerified c));
      [discriminate | reflexivity].
Qed.

Lemma X5_effective_results_witness :
  Issues (fst (validateControl soundControl demoWorld)) = []
  /\ Recommendations (fst (validateControl soundControl demoWorld)) = []
  /\ Effectiveness (fst (validateControl soundControl demoWorld)) = 0.9%float
  /\ Confidence (fst (validateControl soundControl demoWorld)) = 1%float
  /\ Status soundControl = StatusImplemented
  /\ Evidence soundControl <> []
  /\ Owner soundControl <> ""
  /\ IsZero (LastVerified soundControl) = false.
Proof.
  exact (X5_effective_results soundControl demoWorld eq_refl).
Defined.

(** X6: a result of [validateControl] carries the identifier and the name of
    the control, never any evidence, and the first clock reading of the call
    as its date; the call reads the clock once when the control has no
    verification date and twice otherwise, and leaves the clock itself as it
    was. *)
Theorem X6_result_fields_and_clock (c : SecurityControl) (w : World) :
  ControlID (fst (validateControl c w)) = ID c
  /\ ControlName (fst (validateControl c w)) = Name c
  /\ ResultEvidence (fst (validateControl c w)) = []
  /\ ValidatedAt (fst (validateControl c w)) = nextReading w
  /\ wall (snd (validateControl c w)) = wall w
  /\ tick (snd (validateControl c w))
     = ((if IsZero (LastVerified c) then 1 else 2) + tick w)%nat.
Proof.
  rewrite validateControl_run. simpl.
  repeat split; destruct (IsZero (LastVerified c)); reflexivity.
Qed.

(** X8: an implemented control that has evidence and an owner is validated
    with effectiveness 0.9; when its verification date is not older than six
    months the result is EFFECTIVE with confidence 1.0 and without issues,
    and otherwise it is PARTIALLY_EFFECTIVE with confidence 0.6, the one
    issue about the verification and the recommendation to schedule one. *)
Theorem X8_documented_implemented_control
  (c : SecurityControl) (w : World) :
  Status c = StatusImplemented ->
  Evidence c <> [] ->
  Owner c <> "" ->
  Effectiveness (fst (validateControl c w)) = 0.9%float
  /\ (staleAt c (nextReading (advance w 1)) = false ->
      ResultStatus (fst (validateControl c w)) = "EFFECTIVE"
      /\ Issues (fst (validateControl c w)) = []
      /\ Recommendations (fst (validateControl c w)) = []
      /\ Confidence (fst (validateControl c w)) = 1%float)
  /\ (staleAt c (nextReading (advance w 1)) = true ->
      ResultStatus (fst (validateControl c w)) = "PARTIALLY_EFFECTIVE"
      /\ Issues (fst (validateControl c w)) = [issue_not_verified]
      /\ Recommendations (fst (validateControl c w))
         = ["Schedule control verification"]
      /\ Confidence (fst (validateControl c w)) = 0.6%float).
Proof.
  intros Hs Hev Hown.
  rewrite validateControl_run. simpl.
  rewrite validateControlImplementation_status, Hs.
  set (now := wall w (S (tick w))).
  assert (I : issuesAt c now
              = if staleAt c now then [issue_not_verified] else []).
  { unfold issuesAt, len. destruct (Evidence c); [congruence|]. simpl.
    apply String.eqb_neq in Hown. rewrite Hown.
    destruct (staleAt c now); reflexivity. }
  rewrite I, calculateConfidence_spec.
  assert (N : nonEmpty (Evidence c) = true)
    by (destruct (Evidence c); [congruence | reflexivity]).
  rewrite N.
  split; [reflexivity|].
  split; intros ->; vm_compute; repeat split.
Qed.

Lemma X8_documented_implemented_control_witness :
  Effectiveness (fst (validateControl soundControl demoWorld)) = 0.9%float
  /\ (staleAt soundControl (nextReading (advance demoWorld 1)) = false ->
      ResultStatus (fst (validateControl soundControl demoWorld))
      = "EFFECTIVE"
      /\ Issues (fst (validateControl soundControl demoWorld)) = []
      /\ Recommendations (fst (validateControl soundControl demoWorld)) = []
      /\ Confidence (fst (validateControl soundControl demoWorld)) = 1%float)
  /\ (staleAt soundControl (nextReading (advance demoWorld 1)) = true ->
      ResultStatus (fst (validateControl soundControl demoWorld))
      = "PARTIALLY_EFFECTIVE"
      /\ Issues (fst (validateControl soundControl demoWorld))
         = [issue_not_verified]
      /\ Recommendations (fst (validateControl soundControl demoWorld))
         = ["Schedule control verification"]
      /\ Confidence (fst (validateControl soundControl demoWorld))
         = 0.6%float).
Proof.
  apply (X8_documented_implemented_control soundControl demoWorld eq_refl);
    discriminate.
Defined.

(** X9: the report of a log with one more result at its end is the report
    of the log before, extended at its end by the entry of that result,
    numbered one more than the entries before it; the first entry follows
    the heading of the results, which takes the place of the line of the
    empty log. The held controls have no part in the report. *)
Theorem X9_report_grows_by_one_entry
  (cs : list SecurityControl) (rs : list ControlValidationResult)
  (r : ControlValidationResult) :
  GenerateReport (mkControlValidator cs (rs ++ [r]))
  = reportEntry
      (if len rs =? 0 then controlReportHead
       else GenerateReport (mkControlValidator cs rs))
      (len rs) r.
Proof.
  unfold GenerateReport, GetValidationResults. simpl results.
  assert (L : (len (rs ++ [r]) =? 0) = false).
  { unfold len. rewrite length_app. simpl. apply Z.eqb_neq. lia. }
  rewrite L, rangeFold_snoc. simpl (0 + _).
  destruct rs as [|r0 rs]; reflexivity.
Qed.

(** X10: the recency check is not monotone in the clock. The control
    verified on 1 March 2026 at noon is reported as not verified in the last
    six months on 30 August 2026, and has no issue two days later, on
    1 September 2026. *)
Theorem X10_recency_check_is_not_monotone :
  exists (c : SecurityControl) (t1 t2 : Time),
    t1 < t2
    /\ fst (identifyIssues c (worldAt t1)) = [issue_not_verified]
    /\ fst (identifyIssues c (worldAt t2)) = [].
Proof.
  exists marchControl, (Date 2026 8 30 0 0 0), (Date 2026 9 1 0 0 0).
  repeat split.
Qed.

End ControlFurther.

(** ** Conversion of integers and division in binary64 *)

Ltac pow_atoms :=
  repeat match goal with
         | |- context [2 ^ ?x] =>
             let a := fresh "pw" in set (a := 2 ^ x) in *; clearbody a
         | H : context [2 ^ ?x] |- _ =>
             let a := fresh "pw" in set (a := 2 ^ x) in *; clearbody a
         end.

Lemma digits2_bounds (p : positive) :
  2 ^ (Zpos (digits2_pos p) - 1) <= Zpos p < 2 ^ Zpos (digits2_pos p).
Proof.
  induction p as [p IH|p IH|]; cbn [digits2_pos];
    rewrite ?Pos2Z.inj_succ.
  - replace (Z.succ (Zpos (digits2_pos p)) - 1)
      with (Z.succ (Zpos (digits2_pos p) - 1)) by lia.
    rewrite !Z.pow_succ_r by lia. change (Zpos p~1) with (2 * Zpos p + 1). pow_atoms. lia.
  - replace (Z.succ (Zpos (digits2_pos p)) - 1)
      with (Z.succ (Zpos (digits2_pos p) - 1)) by lia.
    rewrite !Z.pow_succ_r by lia. change (Zpos p~0) with (2 * Zpos p). pow_atoms. lia.
  - simpl. lia.
Qed.

Lemma Zdigits2_le (p : positive) (k : Z) :
  0 <= k -> Zpos p < 2 ^ k -> Zpos (digits2_pos p) <= k.
Proof.
  intros Hk H. destruct (digits2_bounds p) as [L _].
  assert (2 ^ (Zpos (digits2_pos p) - 1) < 2 ^ k) by lia.
  apply Z.pow_lt_mono_r_iff in H0; lia.
Qed.

Lemma shr_1_div2 (mrs : shr_record) :
  0 <= shr_m mrs -> shr_m (shr_1 mrs) = shr_m mrs / 2.
Proof.
  destruct mrs as [m r s]. simpl. intros H. rewrite <- Z.div2_div.
  destruct m as [|p|p]; [ | destruct p | lia ]; reflexivity.
Qed.

Lemma iter_shr_1_div (n : positive) :
  forall mrs, 0 <= shr_m mrs ->
    shr_m (iter_pos shr_1 n mrs) = shr_m mrs / 2 ^ Zpos n.
Proof.
  induction n as [n IH|n IH|]; intros mrs H; cbn [iter_pos].
  - rewrite IH by (apply iter_shr_1_nonneg, shr_1_nonneg, H).
    rewrite IH by (apply shr_1_nonneg, H).
    rewrite shr_1_div2 by exact H.
    rewrite !Z.div_div by lia.
    f_equal. change (Zpos n~1) with (2 * Zpos n + 1).
    replace (2 * Zpos n + 1) with (1 + Zpos n + Zpos n) by lia.
    rewrite !Z.pow_add_r by lia. change (2 ^ 1) with 2. ring.
  - rewrite IH by (apply iter_shr_1_nonneg, H).
    rewrite IH by exact H.
    rewrite Z.div_div by lia.
    f_equal. change (Zpos n~0) with (2 * Zpos n).
    replace (2 * Zpos n) with (Zpos n + Zpos n) by lia.
    rewrite Z.pow_add_r by lia. reflexivity.
  - rewrite shr_1_div2 by exact H. reflexivity.
Qed.

Lemma shr_fexp_pos (p : positive) (e : Z) (l : location) :
  -1022 <= e ->
  0 < shr_m (fst (shr_fexp 53 1024 (Zpos p) e l)) <= Zpos p
  /\ snd (shr_fexp 53 1024 (Zpos p) e l)
     = Z.max e (Zpos (digits2_pos p) + e - 53).
Proof.
  intros He. unfold shr_fexp, fexp, emin. cbn [Zdigits2].
  set (d := Zpos (digits2_pos p)).
  replace (Z.max (d + e - 53) (3 - 1024 - 53) - e) with (d - 53) by lia.
  destruct (d - 53) as [|n|n] eqn:En; cbn [shr fst snd];
    rewrite ?shr_m_of_loc; try (split; lia).
  rewrite iter_shr_1_div by (rewrite shr_m_of_loc; lia).
  rewrite shr_m_of_loc.
  destruct (digits2_bounds p) as [L _]. fold d in L.
  assert (P : 0 < 2 ^ Zpos n) by (apply Z.pow_pos_nonneg; lia).
  assert (B : 2 ^ Zpos n <= Zpos p).
  { apply Z.le_trans with (2 ^ (d - 1)); [|exact L].
    apply Z.pow_le_mono_r; lia. }
  repeat split.
  - apply Z.div_str_pos. lia.
  - apply Z.div_le_upper_bound; nia.
  - lia.
Qed.

Lemma round_nearest_even_bounds (m : Z) (l : location) :
  m <= round_nearest_even m l <= m + 1.
Proof.
  destruct l as [|[]]; simpl; try lia. destruct (Z.even m); lia.
Qed.

(** Rounding a positive integer of at most 64 binary digits, scaled by a
    power of two between 2^-1022 and 1, gives a finite number. *)
Lemma binary_round_aux_finite (sx : bool) (p : positive) (ex : Z) :
  Zpos (digits2_pos p) <= 64 -> -1022 <= ex <= 0 ->
  exists m e, binary_round_aux 53 1024 sx (Zpos p) ex loc_Exact
              = S754_finite sx m e.
Proof.
  intros Hd He. unfold binary_round_aux.
  destruct (shr_fexp_pos p ex loc_Exact) as [[P1 B1] E1]; [lia|].
  destruct (shr_fexp 53 1024 (Zpos p) ex loc_Exact) as [mrs' e'].
  cbn [fst snd] in *.
  pose proof (round_nearest_even_bounds (shr_m mrs') (loc_of_shr_record mrs'))
    as R.
  destruct (round_nearest_even (shr_m mrs') (loc_of_shr_record mrs'))
    as [|m1|m1]; try lia.
  assert (D1 : Zpos (digits2_pos m1) <= 65).
  { apply Zdigits2_le; [lia|].
    destruct (digits2_bounds p) as [_ U].
    apply Z.lt_le_trans with (2 ^ Zpos (digits2_pos p) + 1); [lia|].
    apply Z.le_trans with (2 ^ 64 + 1); [|vm_compute; discriminate].
    apply Z.add_le_mono_r, Z.pow_le_mono_r; lia. }
  destruct (shr_fexp_pos m1 e' loc_Exact) as [[P2 B2] E2]; [lia|].
  destruct (shr_fexp 53 1024 (Zpos m1) e' loc_Exact) as [mrs'' e''].
  cbn [fst snd] in *.
  destruct (shr_m mrs'') as [|m2|m2]; try lia.
  replace (e'' <=? 1024 - 53) with true by (symmetry; apply Z.leb_le; lia).
  eauto.
Qed.

Lemma iter_xO_pow (p k : positive) :
  Zpos (Pos.iter xO p k) = Zpos p * 2 ^ Zpos k.
Proof.
  induction k as [|k IH] using Pos.peano_ind.
  - simpl. lia.
  - rewrite Pos.iter_succ, Pos2Z.inj_succ, Z.pow_succ_r by lia.
    change (Zpos (Pos.iter xO p k)~0) with (2 * Zpos (Pos.iter xO p k)).
    rewrite IH. ring.
Qed.

Lemma binary_round_finite (p : positive) :
  Zpos p < 2 ^ 63 ->
  exists m e, binary_round 53 1024 false p 0 = S754_finite false m e.
Proof.
  intros Hp. unfold binary_round, shl_align, fexp, emin.
  assert (Hd : 1 <= Zpos (digits2_pos p) <= 63).
  { split; [lia | apply Zdigits2_le; lia]. }
  set (d := Zpos (digits2_pos p)) in *.
  replace (Z.max (d + 0 - 53) (3 - 1024 - 53) - 0) with (d - 53) by lia.
  replace (Z.max (d + 0 - 53) (3 - 1024 - 53)) with (d - 53) by lia.
  destruct (d - 53) as [|k|k] eqn:Ek.
  - apply binary_round_aux_finite; fold d; lia.
  - apply binary_round_aux_finite; fold d; lia.
  - apply binary_round_aux_finite; [|lia].
    apply Zdigits2_le; [lia|]. rewrite iter_xO_pow.
    destruct (digits2_bounds p) as [_ U]. fold d in U.
    apply Z.lt_le_trans with (2 ^ d * 2 ^ Zpos k).
    + apply Z.mul_lt_mono_pos_r; [apply Z.pow_pos_nonneg; lia | exact U].
    + rewrite <- Z.pow_add_r by lia. apply Z.pow_le_mono_r; lia.
Qed.

(** The conversion of a positive [int] to [float64] is a finite number. *)
Lemma float64_of_int_finite (n : Z) :
  0 < n < 2 ^ 63 ->
  exists m e, Prim2SF (float64_of_int n) = S754_finite false m e.
Proof.
  intros Hn. unfold float64_of_int.
  rewrite of_uint63_spec, Uint63.of_Z_spec.
  rewrite Z.mod_small by (change wB with (2 ^ 63); lia).
  destruct n as [|p|p]; try lia. simpl binary_normalize.
  apply binary_round_finite. lia.
Qed.

Lemma SFdiv_core_binary_self (m : positive) (e : Z) :
  SFdiv_core_binary 53 1024 (Zpos m) e (Zpos m) e
  = (2 ^ 53, -53, loc_Exact).
Proof.
  unfold SFdiv_core_binary.
  rewrite !Z.sub_diag.
  change (Z.min (fexp 53 1024 0) 0) with (-53).
  change (0 - -53) with 53.
  cbv iota beta.
  rewrite Z.shiftl_mul_pow2 by lia.
  pose proof (Z.div_mul (2 ^ 53) (Zpos m)) as Q.
  pose proof (Z.mod_mul (2 ^ 53) (Zpos m)) as R.
  unfold Z.div, Z.modulo in Q, R.
  rewrite (Z.mul_comm (Zpos m)).
  destruct (Z.div_eucl (2 ^ 53 * Zpos m) (Zpos m)) as [q r].
  rewrite Q, R by lia.
  unfold new_location, new_location_even, new_location_odd.
  destruct (Z.even (Zpos m)); reflexivity.
Qed.

(** A finite number divided by itself is 1. *)
Lemma div_self_finite (x : float64) (s : bool) (m : positive) (e : Z) :
  Prim2SF x = S754_finite s m e -> (x / x)%float = 1%float.
Proof.
  intros H. apply Prim2SF_inj.
  rewrite div_spec, H. unfold SF64div, SFdiv.
  rewrite SFdiv_core_binary_self.
  destruct s; vm_compute; reflexivity.
Qed.

Lemma success_rate_of_all_passed (n : Z) :
  0 < n < 2 ^ 63 ->
  Sprintf_1f (float64_of_int n / float64_of_int n * 100)%float = "100.0".
Proof.
  intros Hn. destruct (float64_of_int_finite n Hn) as (m & e & H).
  rewrite (div_self_finite _ _ _ _ H). vm_compute. reflexivity.
Qed.

(** ** The test registry *)

Section TestFurther.

Import validate.

Lemma testResultsFrom_snoc (clock : nat -> Time) (tests : list ControlTest)
  (test : ControlTest) :
  forall k : nat,
    testResultsFrom clock (tests ++ [test]) k
    = testResultsFrom clock tests k
        ++ [testResultAt test (clock (2 * List.length tests + k)%nat)
              (clock (S (2 * List.length tests + k)))].
Proof.
  induction tests as [|t0 tests IH]; intros k; simpl; [reflexivity|].
  rewrite IH. do 4 f_equal; f_equal; lia.
Qed.

(** X11: after [AddControlTest] the next [Validate] returns the results of
    the tests held before, followed by the result of the added test, which
    is validated in the world that the run over the earlier tests leaves;
    adding a test changes the stored results in no way. *)
Theorem X11_Validate_after_AddControlTest
  (v : ControlValidator) (test : ControlTest) (w : World) :
  fst (fst (Validate (AddControlTest v test) w))
  = fst (fst (Validate v w))
      ++ [fst (validateControlTest test (snd (Validate v w)))]
  /\ GetResults (AddControlTest v test) = GetResults v
  /\ GetControlTests (AddControlTest v test) = GetControlTests v ++ [test].
Proof.
  split; [|split; reflexivity].
  rewrite !Validate_run, validateControlTest_run. simpl.
  rewrite testResultsFrom_snoc. unfold advance, nextReading. simpl.
  do 3 f_equal; f_equal; lia.
Qed.

Lemma seconds_of_day (t : Z) :
  t / nsPerDay = t / nsPerSecond / 86400
  /\ t mod nsPerDay / nsPerSecond = (t / nsPerSecond) mod 86400.
Proof.
  change nsPerDay with (nsPerSecond * 86400). unfold nsPerSecond. split.
  - rewrite Z.div_div by lia. reflexivity.
  - rewrite Z.rem_mul_r by lia.
    rewrite Z.mul_comm, Z.div_add by lia.
    rewrite Z.div_small by (apply Z.mod_pos_bound; lia). reflexivity.
Qed.

(** The identifier stamp has the resolution of one second. *)
Lemma Format_same_second (t1 t2 : Time) :
  t1 / nsPerSecond = t2 / nsPerSecond ->
  Format_20060102150405 t1 = Format_20060102150405 t2.
Proof.
  intros H. unfold Format_20060102150405.
  destruct (seconds_of_day t1) as [-> ->].
  destruct (seconds_of_day t2) as [-> ->].
  rewrite H. reflexivity.
Qed.

Lemma testResultsFrom_same_second (clock : nat -> Time) (sec : Z)
  (tests : list ControlTest) :
  forall k : nat,
    (forall j : nat,
        (k <= j < k + 2 * List.length tests)%nat ->
        clock j / nsPerSecond = sec) ->
    Forall (fun r =>
              ResultID r
              = ("val-" ++ Format_20060102150405 (sec * nsPerSecond))%string)
      (testResultsFrom clock tests k).
Proof.
  induction tests as [|t tests IH]; intros k H; simpl; constructor.
  - simpl. do 4 f_equal. apply Format_same_second.
    rewrite (H k) by (simpl; lia).
    rewrite Z.div_mul by (unfold nsPerSecond; lia). reflexivity.
  - apply IH. intros j Hj. apply H. simpl. lia.
Qed.

(** X12: the identifier of a result is "val-" and the clock reading to the
    second, so it does not identify the result: when all readings of a run
    of [Validate] fall within one second, all its results get the same
    identifier. *)
Theorem X12_result_ids_collide_within_a_second
  (v : ControlValidator) (w : World) (sec : Z) :
  (forall k : nat,
      (tick w <= k < tick w + 2 * List.length (controls v))%nat ->
      wall w k / nsPerSecond = sec) ->
  Forall (fun r =>
            ResultID r
            = ("val-" ++ Format_20060102150405 (sec * nsPerSecond))%string)
    (fst (fst (Validate v w))).
Proof.
  intros H. rewrite Validate_run. simpl.
  apply testResultsFrom_same_second, H.
Qed.

Lemma X12_result_ids_collide_within_a_second_witness :
  Forall (fun r =>
            ResultID r
            = ("val-"
                 ++ Format_20060102150405
                      (Date 2026 10 31 12 0 0 / nsPerSecond * nsPerSecond))%string)
    (fst (fst (Validate builtinTests
                 (worldAt (Date 2026 10 31 12 0 0 + 999999999))))).
Proof.
  apply (X12_result_ids_collide_within_a_second builtinTests
           (worldAt (Date 2026 10 31 12 0 0 + 999999999))
           (Date 2026 10 31 12 0 0 / nsPerSecond)).
  intros k _. reflexivity.
Defined.

Lemma countResult_fold (rs : list ValidationResult) :
  forall p f : Z,
    fold_left countResult rs (p, f)
    = (p + len (filter TestPassed rs),
       f + len (filter (fun r => negb (TestPassed r)) rs)).
Proof.
  induction rs as [|r rs IH]; intros p f; simpl.
  - unfold len. simpl. f_equal; lia.
  - destruct (TestPassed r); simpl; rewrite IH; unfold len; simpl List.length;
      f_equal; lia.
Qed.

Lemma testResultsFrom_passed (clock : nat -> Time) (tests : list ControlTest) :
  forall k : nat,
    filter TestPassed (testResultsFrom clock tests k)
    = testResultsFrom clock tests k
    /\ filter (fun r => negb (TestPassed r)) (testResultsFrom clock tests k)
       = []
    /\ List.length (testResultsFrom clock tests k) = List.length tests.
Proof.
  induction tests as [|t tests IH]; intros k; simpl; [auto|].
  destruct (IH (S (S k))) as (-> & -> & ->). auto.
Qed.

(** X13: the summary of the test report counts every stored result once, as
    passed or as failed, so the two numbers add up to the total; for the
    results that [Validate] stores the number of passed results is the
    number of held tests and the number of failed results is 0. *)
Theorem X13_summary_counts (v : ControlValidator) (w : World)
  (rs : list ValidationResult) :
  fst (fold_left countResult rs (0, 0))
    + snd (fold_left countResult rs (0, 0)) = len rs
  /\ fst (fold_left countResult rs (0, 0)) = len (filter TestPassed rs)
  /\ fold_left countResult (GetResults (snd (fst (Validate v w)))) (0, 0)
     = (len (controls v), 0).
Proof.
  rewrite !countResult_fold, Validate_run. simpl.
  destruct (testResultsFrom_passed (wall w) (controls v) (tick w))
    as (-> & -> & L).
  repeat split.
  - unfold len. rewrite <- Nat2Z.inj_add. f_equal.
    induction rs as [|r rs IH]; simpl; [reflexivity|].
    destruct (TestPassed r); simpl; lia.
  - unfold len. rewrite L. reflexivity.
Qed.

(** X14: [ValidateByMethod] returns exactly the held tests of the method,
    and adding a test extends the answer at its end when the method matches
    and leaves it as it was otherwise. *)
Theorem X14_ValidateByMethod_and_AddControlTest
  (v : ControlValidator) (test : ControlTest) (method : ValidationMethod) :
  ValidateByMethod (AddControlTest v test) method
  = ValidateByMethod v method
      ++ (if String.eqb (Method test) method then [test] else [])
  /\ (forall x : ControlTest,
         In x (ValidateByMethod v method)
         <-> In x (GetControlTests v) /\ Method x = method)
  /\ ValidateByMethod NewControlValidator method = [].
Proof.
  unfold ValidateByMethod, AddControlTest, GetControlTests. simpl.
  split; [|split; [|reflexivity]].
  - rewrite filter_app. simpl.
    destruct (String.eqb (Method test) method); reflexivity.
  - intros x. rewrite filter_In, String.eqb_eq. reflexivity.
Qed.

Lemma detailEntry_passed (report : string) (i : Z) (test : ControlTest)
  (t1 t2 : Time) :
  detailEntry report i (testResultAt test t1 t2)
  = (report ++ passedEntry i test)%string.
Proof.
  assert (E : Sprintf_1f (0.8 * 100)%float = "80.0")
    by (vm_compute; reflexivity).
  assert (R : Sprintf_1f ((1.0 - 0.8) * 100)%float = "20.0")
    by (vm_compute; reflexivity).
  unfold detailEntry, testResultAt, passedEntry.
  cbn [TestPassed negb ControlName ControlID ValidationResultLabel
         Effectiveness RiskRemaining Recommendations].
  rewrite E, R. change (0 <? len (@nil string)) with false. cbv iota.
  rewrite !append_assoc. reflexivity.
Qed.

Lemma detailEntries_passed (clock : nat -> Time) (tests : list ControlTest) :
  forall (i : Z) (k : nat) (report : string),
    rangeFold detailEntry i (testResultsFrom clock tests k) report
    = (report ++ passedEntries i tests)%string.
Proof.
  induction tests as [|test tests IH]; intros i k report; simpl.
  - symmetry. apply append_nil_r.
  - rewrite detailEntry_passed, IH, append_assoc. reflexivity.
Qed.

(** X16: after [Validate] on a registry that holds at least one test, the
    report gives the number of tests as total and as passed, 0 as failed and
    a success rate of 100.0%, and one detail entry per test in order, each
    with the check mark, the label PASS, an effectiveness of 80.0%, a
    remaining risk of 20.0% and no recommendation. *)
Theorem X16_test_report_after_Validate (v : ControlValidator) (w : World) :
  controls v <> [] ->
  len (controls v) < 2 ^ 63 ->
  GenerateValidationReport (snd (fst (Validate v w)))
  = (testReportHead (len (controls v))
       ++ "  Success Rate: 100.0%" ++ LF ++ LF
       ++ "Validation Details:" ++ LF
       ++ passedEntries 0 (controls v))%string.
Proof.
  intros Hne Hlen. rewrite Validate_run.
  unfold GenerateValidationReport, GetResults. cbn [fst snd results].
  destruct (testResultsFrom_passed (wall w) (controls v) (tick w))
    as (Hp & Hf & Hl).
  assert (Hn : len (testResultsFrom (wall w) (controls v) (tick w))
               = len (controls v)) by (unfold len; now rewrite Hl).
  assert (Hpos : 0 < len (controls v)).
  { unfold len. destruct (controls v); [congruence | simpl; lia]. }
  rewrite countResult_fold, Hp, Hf, Hn.
  replace (len (controls v) =? 0) with false
    by (symmetry; apply Z.eqb_neq; lia).
  change (len (@nil ValidationResult)) with 0. rewrite !Z.add_0_l.
  rewrite success_rate_of_all_passed by lia.
  rewrite detailEntries_passed. unfold testReportHead.
  rewrite !append_assoc. reflexivity.
Qed.

Lemma X16_test_report_after_Validate_witness :
  GenerateValidationReport (snd (fst (Validate builtinTests demoWorld)))
  = (testReportHead (len (controls builtinTests))
       ++ "  Success Rate: 100.0%" ++ LF ++ LF
       ++ "Validation Details:" ++ LF
       ++ passedEntries 0 (controls builtinTests))%string.
Proof.
  apply (X16_test_report_after_Validate builtinTests demoWorld);
    [discriminate | reflexivity].
Defined.

(** X17: [Validate] on a registry without tests returns no result, replaces
    the stored results by none, whatever they were, and does not read the
    clock; the report is then the message that no validation results are
    available. *)
Theorem X17_Validate_without_tests (v : ControlValidator) (w : World) :
  controls v = [] ->
  Validate v w
  = ([], mkControlValidator [] (validation v) [], w)
  /\ GenerateValidationReport (snd (fst (Validate v w)))
     = ("=== Security Control Validation Report ===" ++ LF ++ LF
          ++ "No validation results available" ++ LF)%string.
Proof.
  intros H. rewrite Validate_run, H. simpl. split; [|reflexivity].
  destruct w; reflexivity.
Qed.

Lemma X17_Validate_without_tests_witness :
  Validate (mkControlValidator [] [] [testResultAt passedTest 0 0]) demoWorld
  = ([],
     mkControlValidator []
       (validation
          (mkControlValidator [] [] [testResultAt passedTest 0 0]))
       [],
     demoWorld)
  /\ GenerateValidationReport
       (snd (fst (Validate
                    (mkControlValidator [] [] [testResultAt passedTest 0 0])
                    demoWorld)))
     = ("=== Security Control Validation Report ===" ++ LF ++ LF
          ++ "No validation results available" ++ LF)%string.
Proof.
  exact (X17_Validate_without_tests
           (mkControlValidator [] [] [testResultAt passedTest 0 0])
           demoWorld eq_refl).
Defined.

End TestFurther.

(** ** The command-line program *)

Section CommandFurther.

(** X15: the [report] command seeds both registries and validates nothing,
    so whatever the clock it prints the two reports of an empty log, "No
    controls validated yet" and "No validation results available"; it reads
    the clock eight times, for the dates of the built-in controls and
    tests. *)
Theorem X15_report_command_prints_empty_reports (w : World) :
  fst (generateReport w)
  = "Generate Validation Report
=========================

=== Control Validation Report ===
=== Security Control Validation Report ===

No controls validated yet


=== Test Validation Report ===
=== Security Control Validation Report ===

No validation results available

"
  /\ snd (generateReport w) = advance w 8.
Proof. split; reflexivity. Qed.

End CommandFurther.

(** ** The dispatch of the commands *)

Section MainFurther.

Variables validateControls listControls checkStatus : IO string.

(** X18: the [test] command with a control identifier prints nothing and
    reads no clock, whatever the identifier and the arguments after it;
    without an identifier it prints the error line and the usage. A missing
    command prints the usage, and a word that is no command prints "Unknown
    command: " with the word, then the usage. *)
Theorem X18_test_command_and_unknown_commands
  (prog id : string) (rest : list string) (w : World) :
  main validateControls listControls checkStatus
    (prog :: "test" :: id :: rest) w = ("", w)
  /\ main validateControls listControls checkStatus [prog; "test"] w
     = ((Println "Error: control ID required" ++ printUsage)%string, w)
  /\ main validateControls listControls checkStatus [prog] w = (printUsage, w)
  /\ main validateControls listControls checkStatus [] w = (printUsage, w)
  /\ (forall command : string,
         ~ In command
             ["validate"; "test"; "controls"; "report"; "status"; "version";
              "help"; "--help"; "-h"] ->
         main validateControls listControls checkStatus
           (prog :: command :: rest) w
         = (("Unknown command: " ++ command ++ LF ++ printUsage)%string, w)).
Proof.
  repeat split.
  intros command H. unfold main.
  repeat match goal with
         | |- context [String.eqb command ?c] =>
             destruct (String.eqb_spec command c) as [->|_];
             [exfalso; apply H; simpl; tauto|]
         end.
  reflexivity.
Qed.

End MainFurther.
